(** * BookWorm: a shallow embedding of the request handlers

    The development follows the layout of the application package:

    - [python]        the dynamically typed values the handlers see after
                      [response.json()] and [jwt.decode], with the builtin
                      operations the handlers apply to them;
    - [models]        the three tables of [app/models.py];
    - [database]      the committed store and what [db.commit()] does to it
                      under the constraints the models declare;
    - [http]          exceptions, handler results and the status a route
                      answers with;
    - [security]      the token decoder and the password hash, as parameters;
    - [dependencies]  [oauth2_scheme] and [get_current_user];
    - [schemas]       the request bodies;
    - [auth], [users], [shelf], [books]   the routers;
    - [httpx]         the outbound client, as a small interaction tree;
    - [app]           the routes with their dependencies and status codes.

    The modules whose names end in [_facts] hold the properties.

    A handler is a function of the committed store: it returns what it hands
    to the framework (a value or a raised exception) together with the store
    committed when it finishes.  A handler that raises before [db.commit()]
    leaves the committed store as it found it, since the session is discarded
    with the request.  The two outbound calls of the ISBN search are nodes of
    an interaction tree, so that "how many external calls" is a property of
    the handler itself and not of one particular network.

    Outside the embedding: pydantic parsing of request bodies, the
    serialisation of responses but for the check of a returned book against
    [schemas.Book], logging, the password hashing and token signing of
    [app/security.py] (taken as parameters), JSON numbers with a fractional
    part, characters outside ASCII, and concurrency between requests.  The
    range of the 32-bit key columns is accounted for where an id reaches a
    query from a token ([get_current_user]), in the deletion of a user and
    in the sequence of [users.id]; elsewhere the ids of a path or a body are
    taken within that range. *)

From Stdlib Require Import ZArith List String Ascii Bool Lia.
Import ListNotations.

#[local] Set Warnings "-register-all".

Local Open Scope string_scope.
Local Open Scope Z_scope.
Local Open Scope list_scope.

(* ===================================================================== *)
(** ** Python values and builtins                                         *)
(* ===================================================================== *)

Module python.

(** What [json.loads] produces. *)
Inductive value : Type :=
| PNone
| PBool (b : bool)
| PInt (z : Z)
| PStr (s : string)
| PList (l : list value)
| PDict (d : list (string * value)).

(** Exceptions other than [fastapi.HTTPException] that reach a handler.
    [TimeoutException] is the httpx class, a subclass of httpx's
    [RequestError]; [RequestError] below stands for the instances of that
    class which are not timeouts. *)
Inductive exn : Type :=
| TimeoutException (msg : string)
| RequestError (msg : string)
| AttributeError
| KeyError
| IndexError
| TypeError
| ValueError
| JSONDecodeError
| IntegrityError
| Exception (name : string).

(** The result of evaluating a Python expression. *)
Inductive res (A : Type) : Type :=
| Val (a : A)
| Exc (e : exn).
Arguments Val {A} a.
Arguments Exc {A} e.

(** [bool(v)] *)
Definition truthy (v : value) : bool :=
  match v with
  | PNone => false
  | PBool b => b
  | PInt z => negb (z =? 0)
  | PStr s => negb (String.eqb s "")
  | PList l => match l with [] => false | _ => true end
  | PDict d => match d with [] => false | _ => true end
  end.

Definition isinstance_str (v : value) : bool :=
  match v with PStr _ => true | _ => false end.

Definition isinstance_dict (v : value) : bool :=
  match v with PDict _ => true | _ => false end.

Fixpoint assoc (k : string) (d : list (string * value)) : option value :=
  match d with
  | [] => None
  | (k', v) :: d' => if String.eqb k k' then Some v else assoc k d'
  end.

(** [v.get(k, default)]: only a dict has the method. *)
Definition get (v : value) (k : string) (default : value) : res value :=
  match v with
  | PDict d => Val (match assoc k d with Some x => x | None => default end)
  | _ => Exc AttributeError
  end.

(** [len(v)] *)
Definition len (v : value) : res nat :=
  match v with
  | PStr s => Val (String.length s)
  | PList l => Val (List.length l)
  | PDict d => Val (List.length d)
  | _ => Exc TypeError
  end.

(** [v[0]].  The keys of a decoded JSON object are strings, so the integer
    key [0] is never present in a dict. *)
Definition item0 (v : value) : res value :=
  match v with
  | PList [] => Exc IndexError
  | PList (x :: _) => Val x
  | PStr EmptyString => Exc IndexError
  | PStr (String c _) => Val (PStr (String c EmptyString))
  | PDict _ => Exc KeyError
  | _ => Exc TypeError
  end.

(** Characters removed by [str.strip()] (the ASCII ones). *)
Definition is_space (c : ascii) : bool :=
  let n := nat_of_ascii c in
  ((9 <=? n) && (n <=? 13) || (28 <=? n) && (n <=? 32))%nat.

Fixpoint lstrip (s : string) : string :=
  match s with
  | String c s' => if is_space c then lstrip s' else s
  | EmptyString => EmptyString
  end.

Fixpoint rstrip (s : string) : string :=
  match s with
  | EmptyString => EmptyString
  | String c s' =>
      match rstrip s' with
      | EmptyString => if is_space c then EmptyString else String c EmptyString
      | r => String c r
      end
  end.

(** [s.strip()] *)
Definition strip (s : string) : string := rstrip (lstrip s).

(** [s[:n]] *)
Definition prefix (n : nat) (s : string) : string := String.substring 0 n s.

Definition digit_of (c : ascii) : option Z :=
  let n := nat_of_ascii c in
  if ((48 <=? n) && (n <=? 57))%nat then Some (Z.of_nat n - 48) else None.

(** Digits of an integer literal: groups of digits separated by single
    underscores.  [acc] is the value read so far and [after_digit] tells
    whether the previous character was a digit. *)
Fixpoint digits (s : string) (acc : Z) (after_digit : bool) : option Z :=
  match s with
  | EmptyString => if after_digit then Some acc else None
  | String c s' =>
      match digit_of c with
      | Some d => digits s' (10 * acc + d) true
      | None =>
          if Ascii.eqb c "_"%char && after_digit then digits s' acc false
          else None
      end
  end.

(** The whitespace [int()] skips around a literal: the six characters of
    the C locale, fewer than [str.strip()] removes. *)
Definition is_c_space (c : ascii) : bool :=
  let n := nat_of_ascii c in
  ((9 <=? n) && (n <=? 13) || (n =? 32))%nat.

Fixpoint skip_leading (s : string) : string :=
  match s with
  | String c s' => if is_c_space c then skip_leading s' else s
  | EmptyString => EmptyString
  end.

Fixpoint skip_trailing (s : string) : string :=
  match s with
  | EmptyString => EmptyString
  | String c s' =>
      match skip_trailing s' with
      | EmptyString => if is_c_space c then EmptyString else String c EmptyString
      | r => String c r
      end
  end.

Fixpoint count_digits (s : string) : Z :=
  match s with
  | EmptyString => 0
  | String c s' =>
      match digit_of c with
      | Some _ => 1 + count_digits s'
      | None => count_digits s'
      end
  end.

(** [sys.get_int_max_str_digits()], at its default. *)
Definition max_str_digits : Z := 4300.

(** [int(s)] for a string: surrounding whitespace, an optional sign, digits;
    a literal of more than [max_str_digits] digits is refused. *)
Definition int_of_string (s : string) : option Z :=
  let literal := skip_trailing (skip_leading s) in
  if max_str_digits <? count_digits literal
  then None
  else
    match literal with
    | String "-"%char r => option_map Z.opp (digits r 0 false)
    | String "+"%char r => digits r 0 false
    | r => digits r 0 false
    end.

(** [int(v)] *)
Definition int (v : value) : res Z :=
  match v with
  | PInt z => Val z
  | PBool b => Val (if b then 1 else 0)
  | PStr s => match int_of_string s with Some z => Val z | None => Exc ValueError end
  | PNone | PList _ | PDict _ => Exc TypeError
  end.

End python.

(* ===================================================================== *)
(** ** app/models.py                                                      *)
(* ===================================================================== *)

Module models.

Inductive ReadingStatus : Type := PLAN_TO_READ | READING | COMPLETED | DROPPED.

Inductive UserRole : Type := USER | ADMIN.

Definition UserRole_eqb (a b : UserRole) : bool :=
  match a, b with
  | USER, USER | ADMIN, ADMIN => true
  | _, _ => false
  end.

Module User.
Record t : Type := mk
  { id : Z;
    username : string;
    email : string;
    hashed_password : string;
    role : UserRole }.
End User.

Module Book.
Record t : Type := mk
  { id : Z;
    title : string;
    author : string;
    isbn : option string;
    description : option string;
    cover_url : option string }.
End Book.

Module ShelfItem.
Record t : Type := mk
  { id : Z;
    user_id : Z;
    book_id : Z;
    status : ReadingStatus;
    rating : option Z;
    review : option string }.
End ShelfItem.

End models.
Import models.

(* ===================================================================== *)
(** ** The store behind the session                                       *)
(* ===================================================================== *)

(** The committed contents of the three tables, each with the sequence its
    primary key is drawn from.  The operations below are what [db.commit()]
    does with the pending changes of a handler, under the constraints
    declared in [app/models.py]: [users.username], [users.email] and
    [books.isbn] are unique (SQL [NULL]s never collide), and
    [shelf_items.book_id] is a non-nullable reference to a book.

    A table is a list for the sake of [first()] and of the pages of
    [offset] and [limit].  New rows go to its end.  A rewritten row is kept
    at its place, which a [select] without [order_by] does not promise: the
    properties of an update are stated by membership and by the primary key,
    not by the place of the row.  A sequence value drawn by an insert that
    is then refused is not accounted for. *)
Module database.

Record Db : Type := mkDb
  { users : list User.t;
    books : list Book.t;
    shelf_items : list ShelfItem.t;
    users_id_seq : Z;
    books_id_seq : Z;
    shelf_items_id_seq : Z }.

Definition with_users (db : Db) (us : list User.t) : Db :=
  mkDb us (books db) (shelf_items db)
       (users_id_seq db) (books_id_seq db) (shelf_items_id_seq db).

Definition with_books (db : Db) (bs : list Book.t) : Db :=
  mkDb (users db) bs (shelf_items db)
       (users_id_seq db) (books_id_seq db) (shelf_items_id_seq db).

Definition with_shelf_items (db : Db) (its : list ShelfItem.t) : Db :=
  mkDb (users db) (books db) its
       (users_id_seq db) (books_id_seq db) (shelf_items_id_seq db).

(** [result.scalars().first()] *)
Definition first {A : Type} (rows : list A) : option A := List.hd_error rows.

(** The values of an [Integer] column, and the parameters the driver accepts
    where one is compared with such a column. *)
Definition in_int32 (n : Z) : bool := (- 2 ^ 31 <=? n) && (n <? 2 ^ 31).

Definition isbn_is (isbn : string) (b : Book.t) : bool :=
  match Book.isbn b with
  | Some i => String.eqb i isbn
  | None => false
  end.

Definition username_taken (db : Db) (name : string) (except : Z -> bool) : bool :=
  existsb (fun u => String.eqb (User.username u) name && negb (except (User.id u)))
          (users db).

Definition email_taken (db : Db) (mail : string) (except : Z -> bool) : bool :=
  existsb (fun u => String.eqb (User.email u) mail && negb (except (User.id u)))
          (users db).

(** [db.add(User(...)); await db.commit(); await db.refresh(new_user)].  The
    insert is refused when the sequence has run past what the [id] column
    holds. *)
Definition insert_user (db : Db) (username email hashed_password : string)
    (role : UserRole) : python.res (User.t * Db) :=
  if negb (in_int32 (users_id_seq db + 1))
  then python.Exc (python.Exception "DBAPIError")
  else if username_taken db username (fun _ => false)
     || email_taken db email (fun _ => false)
  then python.Exc python.IntegrityError
  else
    let new_id := users_id_seq db + 1 in
    let row := User.mk new_id username email hashed_password role in
    python.Val (row,
                mkDb (users db ++ [row]) (books db) (shelf_items db)
                     new_id (books_id_seq db) (shelf_items_id_seq db)).

(** Commit of the attribute changes made to the loaded row [old]: the
    [UPDATE] carries the changed columns only, so a unique index is consulted
    for a column whose value changed. *)
Definition update_user (db : Db) (old new : User.t) : python.res Db :=
  let self := fun i => i =? User.id old in
  if (negb (String.eqb (User.username new) (User.username old))
        && username_taken db (User.username new) self)
     || (negb (String.eqb (User.email new) (User.email old))
           && email_taken db (User.email new) self)
  then python.Exc python.IntegrityError
  else
    python.Val (with_users db
      (map (fun u => if User.id u =? User.id old then new else u) (users db))).

(** The caller has already deleted the shelf items of the user. *)
Definition delete_user (db : Db) (user_id : Z) : Db :=
  with_users db (filter (fun u => negb (User.id u =? user_id)) (users db)).

Definition delete_shelf_items_of (db : Db) (user_id : Z) : Db :=
  with_shelf_items db
    (filter (fun i => negb (ShelfItem.user_id i =? user_id)) (shelf_items db)).

Definition isbn_taken (db : Db) (isbn : option string) (except : Z -> bool) : bool :=
  match isbn with
  | None => false
  | Some i => existsb (fun b => isbn_is i b && negb (except (Book.id b))) (books db)
  end.

(** [db.add(Book(...)); await db.commit(); await db.refresh(new_book)] *)
Definition insert_book (db : Db) (title author : string)
    (isbn description cover_url : option string) : python.res (Book.t * Db) :=
  if isbn_taken db isbn (fun _ => false)
  then python.Exc python.IntegrityError
  else
    let new_id := books_id_seq db + 1 in
    let row := Book.mk new_id title author isbn description cover_url in
    python.Val (row,
                mkDb (users db) (books db ++ [row]) (shelf_items db)
                     (users_id_seq db) new_id (shelf_items_id_seq db)).

Definition option_string_eqb (a b : option string) : bool :=
  match a, b with
  | Some x, Some y => String.eqb x y
  | None, None => true
  | _, _ => false
  end.

Definition update_book (db : Db) (old new : Book.t) : python.res Db :=
  if negb (option_string_eqb (Book.isbn new) (Book.isbn old))
     && isbn_taken db (Book.isbn new) (fun i => i =? Book.id old)
  then python.Exc python.IntegrityError
  else
    python.Val (with_books db
      (map (fun b => if Book.id b =? Book.id old then new else b) (books db))).

(** Deleting a book: [Book.shelf_items] is a plain relationship (no delete
    cascade), so the unit of work first detaches the dependent shelf items by
    setting their [book_id] to [NULL], which the non-nullable column
    refuses. *)
Definition delete_book (db : Db) (book_id : Z) : python.res Db :=
  if existsb (fun i => ShelfItem.book_id i =? book_id) (shelf_items db)
  then python.Exc python.IntegrityError
  else python.Val
         (with_books db (filter (fun b => negb (Book.id b =? book_id)) (books db))).

Definition update_shelf_item (db : Db) (old new : ShelfItem.t) : Db :=
  with_shelf_items db
    (map (fun i => if ShelfItem.id i =? ShelfItem.id old then new else i)
         (shelf_items db)).

Definition delete_shelf_item (db : Db) (item_id : Z) : Db :=
  with_shelf_items db
    (filter (fun i => negb (ShelfItem.id i =? item_id)) (shelf_items db)).

End database.
Import database.

(* ===================================================================== *)
(** ** Exceptions, results and statuses                                   *)
(* ===================================================================== *)

Module http.

(** The [detail] of an [HTTPException]: a literal, or an f-string ending in
    [str(e)] for a caught exception [e]. *)
Inductive Detail : Type :=
| Text (s : string)
| Formatted (prefix : string) (e : python.exn).

Record HTTPException : Type := mkHTTPException
  { status_code : Z;
    detail : Detail;
    headers : list (string * string) }.

(** What leaves a handler when it does not return. *)
Inductive raised : Type :=
| Http (e : HTTPException)
| Unhandled (e : python.exn).

Inductive result (A : Type) : Type :=
| Ok (a : A)
| Raise (e : raised).
Arguments Ok {A} a.
Arguments Raise {A} e.

(** [raise HTTPException(status_code=..., detail=...)] *)
Definition abort {A : Type} (code : Z) (msg : string) : result A :=
  Raise (Http (mkHTTPException code (Text msg) [])).

(** The status of the response to an outcome whose returned value, if there
    is one, is accepted by the route's [response_model]: the route's declared
    [status_code] (200 when the decorator gives none) for a returned value,
    the exception's own for an [HTTPException], and 500 for anything else. *)
Definition status {A : Type} (route_status : Z) (r : result A) : Z :=
  match r with
  | Ok _ => route_status
  | Raise (Http e) => status_code e
  | Raise (Unhandled _) => 500
  end.

(** The status of the response on a route with a [response_model]: a
    returned value the model refuses is a [ResponseValidationError], which is
    answered 500 like any unhandled exception. *)
Definition status_with_model {A : Type} (response_model : A -> bool)
    (route_status : Z) (r : result A) : Z :=
  match r with
  | Ok a => if response_model a then route_status else 500
  | Raise _ => status route_status r
  end.

Definition HTTP_200_OK : Z := 200.
Definition HTTP_201_CREATED : Z := 201.
Definition HTTP_204_NO_CONTENT : Z := 204.
Definition HTTP_401_UNAUTHORIZED : Z := 401.

End http.
Import http.

(* ===================================================================== *)
(** ** app/security.py and jose, as far as the handlers use them          *)
(* ===================================================================== *)

Module security.

(** The exception classes of [jose]: [ExpiredSignatureError] and
    [JWTClaimsError] are subclasses of [JWTError], which [jwt.decode] raises
    for a bad signature or a payload it cannot parse. *)
Inductive JWTError : Type :=
| BadSignatureOrMalformed
| ExpiredSignatureError
| JWTClaimsError.

(** [decode token] is [jwt.decode(token, SECRET_KEY, algorithms=[ALGORITHM])]
    at the time of the request: the claims, or the error raised. *)
Record t : Type := mk
  { decode : string -> JWTError + list (string * python.value);
    get_password_hash : string -> string }.

End security.

(* ===================================================================== *)
(** ** app/dependencies.py                                                *)
(* ===================================================================== *)

Module dependencies.

(** [OAuth2PasswordBearer(tokenUrl="auth/token")]: the token of the
    [Authorization: Bearer ...] header; a request without one is refused.
    [authorization] is the bearer token the request carries, if any. *)
Definition oauth2_scheme (authorization : option string) : result string :=
  match authorization with
  | Some token => Ok token
  | None =>
      Raise (Http (mkHTTPException HTTP_401_UNAUTHORIZED
                     (Text "Not authenticated")
                     [("WWW-Authenticate", "Bearer")]))
  end.

Definition credentials_exception : HTTPException :=
  mkHTTPException HTTP_401_UNAUTHORIZED
    (Text "Could not validate credentials")
    [("WWW-Authenticate", "Bearer")].

Section WithSecurity.
Variable sec : security.t.

(** The [select] runs outside the two [try] statements, with the subject as
    the parameter compared with [users.id]. *)
Definition get_current_user (token : string) (db : Db) : result User.t :=
  match security.decode sec token with
  | inl _ => Raise (Http credentials_exception)
  | inr payload =>
      match python.assoc "sub" payload with
      | None | Some python.PNone => Raise (Http credentials_exception)
      | Some user_id =>
          match python.int user_id with
          | python.Exc python.ValueError
          | python.Exc python.TypeError => Raise (Http credentials_exception)
          | python.Exc e => Raise (Unhandled e)
          | python.Val user_id_int =>
              if in_int32 user_id_int
              then
                match first (filter (fun u => User.id u =? user_id_int) (users db)) with
                | None => Raise (Http credentials_exception)
                | Some user => Ok user
                end
              else Raise (Unhandled (python.Exception "DBAPIError"))
          end
      end
  end.

(** A route whose signature has
    [current_user = Depends(dependencies.get_current_user)]: the dependency
    is resolved before the body runs, and an exception it raises is the
    outcome of the request ([rejected]). *)
Definition Depends_current_user {R : Type} (authorization : option string)
    (db : Db) (rejected : raised -> R) (handler : User.t -> R) : R :=
  match oauth2_scheme authorization with
  | Raise e => rejected e
  | Ok token =>
      match get_current_user token db with
      | Raise e => rejected e
      | Ok current_user => handler current_user
      end
  end.

End WithSecurity.

End dependencies.

(* ===================================================================== *)
(** ** app/schemas.py (request bodies)                                    *)
(* ===================================================================== *)

Module schemas.

Module BookCreate.
Record t : Type := mk
  { title : string;
    author : string;
    isbn : option string;
    description : option string;
    cover_url : option string }.
End BookCreate.

Module UserCreate.
Record t : Type := mk
  { username : string;
    email : string;
    password : string }.
End UserCreate.

Module UserUpdate.
Record t : Type := mk
  { username : option string;
    email : option string;
    role : option UserRole }.
End UserUpdate.

Module ShelfItemUpdate.
Record t : Type := mk
  { status : option ReadingStatus;
    rating : option Z;
    review : option string }.
End ShelfItemUpdate.

Module ISBNSearch.
Record t : Type := mk { isbn : string }.
End ISBNSearch.

End schemas.
Import schemas.

(* ===================================================================== *)
(** ** app/routers/auth.py                                                *)
(* ===================================================================== *)

Module auth.

Section WithSecurity.
Variable sec : security.t.

Definition register (user : UserCreate.t) (db : Db) : result User.t * Db :=
  match first (filter (fun u => String.eqb (User.username u) (UserCreate.username user))
                      (users db)) with
  | Some existing_user => (abort 400 "Username already registered", db)
  | None =>
      let hashed_pwd := security.get_password_hash sec (UserCreate.password user) in
      match insert_user db (UserCreate.username user) (UserCreate.email user)
                        hashed_pwd USER with
      | python.Exc e => (Raise (Unhandled e), db)
      | python.Val (new_user, db') => (Ok new_user, db')
      end
  end.

End WithSecurity.

End auth.

(* ===================================================================== *)
(** ** app/routers/users.py                                               *)
(* ===================================================================== *)

Module users.

Definition get_user (user_id : Z) (db : Db) (current_user : User.t)
  : result User.t * Db :=
  if negb (UserRole_eqb (User.role current_user) ADMIN)
     && negb (User.id current_user =? user_id)
  then (abort 403 "Not authorized", db)
  else
    match first (filter (fun u => User.id u =? user_id) (database.users db)) with
    | None => (abort 404 "User not found", db)
    | Some user => (Ok user, db)
    end.

Definition set_username (u : User.t) (v : string) : User.t :=
  User.mk (User.id u) v (User.email u) (User.hashed_password u) (User.role u).

Definition set_email (u : User.t) (v : string) : User.t :=
  User.mk (User.id u) (User.username u) v (User.hashed_password u) (User.role u).

Definition set_role (u : User.t) (v : UserRole) : User.t :=
  User.mk (User.id u) (User.username u) (User.email u) (User.hashed_password u) v.

(** The three conditional assignments of [update_user], in order; each
    returns the pending state of [db_user] or the exception raised. *)
Definition apply_username (user_id : Z) (user_update : UserUpdate.t) (db : Db)
    (db_user : User.t) : result User.t :=
  match UserUpdate.username user_update with
  | None => Ok db_user
  | Some name =>
      if username_taken db name (fun i => i =? user_id)
      then abort 400 "Username already taken"
      else Ok (set_username db_user name)
  end.

Definition apply_email (user_id : Z) (user_update : UserUpdate.t) (db : Db)
    (db_user : User.t) : result User.t :=
  match UserUpdate.email user_update with
  | None => Ok db_user
  | Some mail =>
      if email_taken db mail (fun i => i =? user_id)
      then abort 400 "Email already taken"
      else Ok (set_email db_user mail)
  end.

Definition apply_role (user_update : UserUpdate.t) (current_user db_user : User.t)
  : User.t :=
  match UserUpdate.role user_update with
  | Some r =>
      if UserRole_eqb (User.role current_user) ADMIN
      then set_role db_user r
      else db_user
  | None => db_user
  end.

Definition update_user (user_id : Z) (user_update : UserUpdate.t) (db : Db)
    (current_user : User.t) : result User.t * Db :=
  if negb (UserRole_eqb (User.role current_user) ADMIN)
     && negb (User.id current_user =? user_id)
  then (abort 403 "Not authorized", db)
  else
    match first (filter (fun u => User.id u =? user_id) (database.users db)) with
    | None => (abort 404 "User not found", db)
    | Some db_user =>
        match apply_username user_id user_update db db_user with
        | Raise e => (Raise e, db)
        | Ok with_name =>
            match apply_email user_id user_update db with_name with
            | Raise e => (Raise e, db)
            | Ok with_mail =>
                let pending := apply_role user_update current_user with_mail in
                match database.update_user db db_user pending with
                | python.Exc e => (Raise (Unhandled e), db)
                | python.Val db' => (Ok pending, db')
                end
            end
        end
    end.

(** The path id is compared with [users.id] in the [select]; the driver
    refuses a parameter the column cannot hold. *)
Definition delete_user (user_id : Z) (db : Db) (current_user : User.t)
  : result unit * Db :=
  if negb (UserRole_eqb (User.role current_user) ADMIN)
  then (abort 403 "Only administrators can delete users", db)
  else if User.id current_user =? user_id
  then (abort 400 "Cannot delete your own account", db)
  else if negb (in_int32 user_id)
  then (Raise (Unhandled (python.Exception "DBAPIError")), db)
  else
    match first (filter (fun u => User.id u =? user_id) (database.users db)) with
    | None => (abort 404 "User not found", db)
    | Some db_user =>
        (Ok tt, database.delete_user (delete_shelf_items_of db user_id) user_id)
    end.

End users.

(* ===================================================================== *)
(** ** app/routers/shelf.py                                               *)
(* ===================================================================== *)

Module shelf.

(** The [select] of both handlers: the item with this id on the caller's
    own shelf. *)
Definition own_item (item_id : Z) (db : Db) (current_user : User.t)
  : option ShelfItem.t :=
  first (filter (fun i => ShelfItem.user_id i =? User.id current_user)
           (filter (fun i => ShelfItem.id i =? item_id) (shelf_items db))).

Definition apply_update (update_data : ShelfItemUpdate.t) (i : ShelfItem.t)
  : ShelfItem.t :=
  ShelfItem.mk (ShelfItem.id i) (ShelfItem.user_id i) (ShelfItem.book_id i)
    (match ShelfItemUpdate.status update_data with
     | Some s => s | None => ShelfItem.status i end)
    (match ShelfItemUpdate.rating update_data with
     | Some r => Some r | None => ShelfItem.rating i end)
    (match ShelfItemUpdate.review update_data with
     | Some r => Some r | None => ShelfItem.review i end).

Definition update_shelf_item (item_id : Z) (update_data : ShelfItemUpdate.t)
    (db : Db) (current_user : User.t) : result ShelfItem.t * Db :=
  match own_item item_id db current_user with
  | None => (abort 404 "Shelf item not found", db)
  | Some shelf_item =>
      let pending := apply_update update_data shelf_item in
      (Ok pending, database.update_shelf_item db shelf_item pending)
  end.

Definition remove_from_shelf (item_id : Z) (db : Db) (current_user : User.t)
  : result unit * Db :=
  match own_item item_id db current_user with
  | None => (abort 404 "Shelf item not found", db)
  | Some shelf_item => (Ok tt, database.delete_shelf_item db (ShelfItem.id shelf_item))
  end.

End shelf.

(* ===================================================================== *)
(** ** The outbound HTTP client                                           *)
(* ===================================================================== *)

Module httpx.

Module Response.
(** [json] is [None] when [response.json()] raises. *)
Record t : Type := mk
  { status_code : Z;
    json : option python.value }.
End Response.

(** How [await client.get(...)] ends. *)
Inductive reply : Type :=
| Responded (r : Response.t)
| Failed (e : python.exn).

(** A computation that may await [client.get(url, timeout=...)]; the
    continuation receives what the network answered. *)
Inductive prog (A : Type) : Type :=
| Ret (a : A)
| Get (url : string) (timeout : Z) (k : reply -> prog A).
Arguments Ret {A} a.
Arguments Get {A} url timeout k.

Fixpoint bind {A B : Type} (m : prog A) (f : A -> prog B) : prog B :=
  match m with
  | Ret a => f a
  | Get url timeout k => Get url timeout (fun r => bind (k r) f)
  end.

(** Running a computation against a network: [net n url] is the answer to
    the [n]-th call of the request when it goes to [url].  The result comes
    with the calls made, in order. *)
Fixpoint run_from {A : Type} (net : nat -> string -> reply) (n : nat)
    (m : prog A) : A * list (string * Z) :=
  match m with
  | Ret a => (a, [])
  | Get url timeout k =>
      let (a, calls) := run_from net (S n) (k (net n url)) in
      (a, (url, timeout) :: calls)
  end.

Definition run {A : Type} (net : nat -> string -> reply) (m : prog A)
  : A * list (string * Z) :=
  run_from net 0%nat m.

(** [returns m a]: some network makes [m] end with [a]. *)
Inductive returns {A : Type} : prog A -> A -> Prop :=
| returns_Ret (a : A) : returns (Ret a) a
| returns_Get (url : string) (timeout : Z) (k : reply -> prog A) (r : reply) (a : A) :
    returns (k r) a -> returns (Get url timeout k) a.

(** A computation that makes no call. *)
Definition silent {A : Type} (m : prog A) : Prop := exists a, m = Ret a.

(** Computations that may also raise. *)
Definition M (A : Type) : Type := prog (result A).

Definition ret {A : Type} (a : A) : M A := Ret (Ok a).

Definition raise {A : Type} (e : raised) : M A := Ret (Raise e).

Definition bindM {A B : Type} (m : M A) (f : A -> M B) : M B :=
  bind m (fun r => match r with Ok a => f a | Raise e => Ret (Raise e) end).

(** [try: m  except Exception: h] *)
Definition try_except {A : Type} (m : M A) (h : raised -> M A) : M A :=
  bind m (fun r => match r with Ok a => Ret (Ok a) | Raise e => h e end).

Definition lift {A : Type} (r : python.res A) : M A :=
  match r with
  | python.Val a => ret a
  | python.Exc e => raise (Unhandled e)
  end.

Definition client_get (url : string) (timeout : Z) : M Response.t :=
  Get url timeout (fun r =>
    match r with
    | Responded resp => ret resp
    | Failed e => raise (Unhandled e)
    end).

(** [response.json()] *)
Definition json (r : Response.t) : M python.value :=
  match Response.json r with
  | Some v => ret v
  | None => raise (Unhandled python.JSONDecodeError)
  end.

End httpx.

Declare Scope monad_scope.
Notation "x <- m ;; k" := (httpx.bindM m (fun x => k))
  (at level 61, m at next level, right associativity) : monad_scope.

(* ===================================================================== *)
(** ** app/routers/books.py                                               *)
(* ===================================================================== *)

Module books.
Import python httpx.
Local Open Scope monad_scope.

Definition update_book (book_id : Z) (book_update : BookCreate.t) (db : Db)
    (current_user : User.t) : result Book.t * Db :=
  match first (filter (fun b => Book.id b =? book_id) (database.books db)) with
  | None => (abort 404 "Book not found", db)
  | Some db_book =>
      let pending :=
        Book.mk (Book.id db_book)
          (BookCreate.title book_update) (BookCreate.author book_update)
          (BookCreate.isbn book_update) (BookCreate.description book_update)
          (BookCreate.cover_url book_update) in
      match database.update_book db db_book pending with
      | Exc e => (Raise (Unhandled e), db)
      | Val db' => (Ok pending, db')
      end
  end.

Definition delete_book (book_id : Z) (db : Db) (current_user : User.t)
  : result unit * Db :=
  if negb (UserRole_eqb (User.role current_user) ADMIN)
  then (abort 403 "Only administrators can delete books", db)
  else
    match first (filter (fun b => Book.id b =? book_id) (database.books db)) with
    | None => (abort 404 "Book not found", db)
    | Some db_book =>
        match database.delete_book db (Book.id db_book) with
        | Exc e => (Raise (Unhandled e), db)
        | Val db' => (Ok tt, db')
        end
    end.

Section Search.

(** [repr v] is the text Python's [str()] gives for a value that is not a
    string, as an f-string inserts it. *)
Variable repr : value -> string.

Definition str (v : value) : string :=
  match v with
  | PStr s => s
  | _ => repr v
  end.

Definition Unknown_title : value := PStr "Unknown title".
Definition Unknown_author : value := PStr "Unknown author".

(** The inner [try] of the author block: the second external call.
    [author] is the value the variable holds when the block is entered. *)
Definition author_url (author_key : value) : string :=
  ("https://openlibrary.org" ++ str author_key ++ ".json")%string.

(** The calls a request makes after the primary one: none, or the author
    lookup with its shorter timeout. *)
Definition author_call_or_none (calls : list (string * Z)) : Prop :=
  calls = [] \/ exists author_key, calls = [(author_url author_key, 5)].

Definition lookup_author_name (author_key author : value) : M value :=
  try_except
    (author_response <- client_get (author_url author_key) 5 ;;
     if Response.status_code author_response =? 200
     then
       author_data <- json author_response ;;
       lift (get author_data "name" Unknown_author)
     else ret author)
    (fun _ => ret author).

Definition resolve_author (authors : value) : M value :=
  let author := Unknown_author in
  if truthy authors
  then
    n <- lift (len authors) ;;
    if (0 <? n)%nat
    then
      try_except
        (first_author <- lift (item0 authors) ;;
         if isinstance_dict first_author
         then
           author_key <- lift (get first_author "key" (PStr "")) ;;
           if truthy author_key
           then lookup_author_name author_key author
           else ret author
         else if isinstance_str first_author
         then ret first_author
         else ret author)
        (fun _ => ret Unknown_author)
    else ret author
  else ret author.

Definition normalize_title (title : value) : value :=
  if negb (truthy title) || negb (isinstance_str title)
  then Unknown_title
  else title.

Definition normalize_description (description : value) : M string :=
  unwrapped <-
    (if isinstance_dict description
     then
       v <- lift (get description "value" (PStr "")) ;;
       ret (if truthy v then v else PStr "")
     else ret description) ;;
  let text :=
    match unwrapped with
    | PStr s => s
    | other => if truthy other then str other else ""%string
    end in
  ret (if 10000 <? Z.of_nat (String.length text)
       then prefix (Z.to_nat 10000) text
       else text).

Definition normalize_cover (covers : value) : M (option string) :=
  if truthy covers
  then
    cover_id <- lift (item0 covers) ;;
    ret (Some ("https://covers.openlibrary.org/b/id/" ++ str cover_id ++ "-L.jpg")%string)
  else ret None.

(** [db.add(new_book); await db.commit(); await db.refresh(new_book)].
    [title] and [author] go to non-nullable string columns: [None] violates
    the constraint and a value that is not a string is refused when it is
    bound. *)
Definition add_book (db : Db) (title author : value) (isbn description : string)
    (cover_url : option string) : python.res (Book.t * Db) :=
  match title, author with
  | PStr t, PStr a => insert_book db t a (Some isbn) (Some description) cover_url
  | PNone, _ | _, PNone => Exc IntegrityError
  | _, _ => Exc (Exception "DBAPIError")
  end.

Definition isbn_url (isbn : string) : string :=
  ("https://openlibrary.org/isbn/" ++ isbn ++ ".json")%string.

Arguments isbn_url : simpl never.
Arguments author_url : simpl never.



(** The body of the [try] statement from [book_data = response.json()] on. *)
Definition normalize_and_store (isbn : string) (db : Db) (book_data : value)
  : M (Book.t * Db) :=
  title <- lift (get book_data "title" Unknown_title) ;;
  let title := normalize_title title in
  authors <- lift (get book_data "authors" (PList [])) ;;
  author <- resolve_author authors ;;
  description <- lift (get book_data "description" (PStr "")) ;;
  description <- normalize_description description ;;
  covers <- lift (get book_data "covers" (PList [])) ;;
  cover_url <- normalize_cover covers ;;
  lift (add_book db title author isbn description cover_url).

(** The body of the [try] statement. *)
Definition fetch_and_store (isbn : string) (db : Db) : M (Book.t * Db) :=
  response <- client_get (isbn_url isbn) 10 ;;
  if Response.status_code response =? 404
  then raise (Http (mkHTTPException 404 (Text "Book not found with this ISBN") []))
  else if negb (Response.status_code response =? 200)
  then raise (Http (mkHTTPException 500 (Text "Error occurred during external API call") []))
  else
    book_data <- json response ;;
    normalize_and_store isbn db book_data.

(** The [except] clauses of the [try] statement, in order. *)
Definition handle (db : Db) (r : result (Book.t * Db)) : result Book.t * Db :=
  match r with
  | Ok (new_book, db') => (Ok new_book, db')
  | Raise (Unhandled (TimeoutException _)) =>
      (abort 504 "Timeout during external API call", db)
  | Raise (Unhandled (RequestError msg)) =>
      (Raise (Http (mkHTTPException 500
                      (Formatted "Error occurred while accessing external API: "
                                 (RequestError msg)) [])), db)
  | Raise (Http e) => (Raise (Http e), db)
  | Raise (Unhandled e) =>
      (Raise (Http (mkHTTPException 500 (Formatted "Unexpected error: " e) [])), db)
  end.

Definition search_book_by_isbn (isbn_request : ISBNSearch.t) (db : Db)
    (current_user : User.t) : prog (result Book.t * Db) :=
  let isbn := strip (ISBNSearch.isbn isbn_request) in
  match first (filter (isbn_is isbn) (database.books db)) with
  | Some existing_book => Ret (Ok existing_book, db)
  | None => bind (fetch_and_store isbn db) (fun r => Ret (handle db r))
  end.

End Search.

End books.

(* ===================================================================== *)
(** ** The routes, as the decorators declare them                         *)
(* ===================================================================== *)

Module app.
Import httpx.

(** [@router.post("/search-by-isbn", status_code=status.HTTP_201_CREATED)] *)
Definition search_by_isbn_status_code : Z := HTTP_201_CREATED.


(** [PUT /books/{book_id}] and [DELETE /books/{book_id}] *)
Definition PUT_books (sec : security.t) (authorization : option string)
    (book_id : Z) (book_update : BookCreate.t) (db : Db) : result Book.t * Db :=
  dependencies.Depends_current_user sec authorization db
    (fun e => (Raise e, db))
    (books.update_book book_id book_update db).

Definition DELETE_books (sec : security.t) (authorization : option string)
    (book_id : Z) (db : Db) : result unit * Db :=
  dependencies.Depends_current_user sec authorization db
    (fun e => (Raise e, db))
    (books.delete_book book_id db).

(** The status code of the response to a finished request. *)
Definition response_status {A : Type} (route_status : Z) (out : result A * Db) : Z :=
  status route_status (fst out).

(** [response_model=schemas.Book]: [title] and [author] are declared with
    [min_length=1]; the other fields accept every stored value. *)
Definition Book_response_model (b : Book.t) : bool :=
  negb (String.eqb (Book.title b) "") && negb (String.eqb (Book.author b) "").

(** The status code of the response of [POST /books/search-by-isbn]. *)
Definition search_by_isbn_response_status (out : result Book.t * Db) : Z :=
  status_with_model Book_response_model search_by_isbn_status_code (fst out).

End app.

(* ===================================================================== *)
(** ** Sample data                                                        *)
(* ===================================================================== *)

Module sample.
Import python httpx.

Definition alice : User.t := User.mk 1 "alice" "alice@example.org" "h1" USER.
Definition root : User.t := User.mk 2 "root" "root@example.org" "h2" ADMIN.

Definition matilda : Book.t :=
  Book.mk 1 "Matilda" "Roald Dahl" (Some "9780140328721") (Some "") None.

Definition alice_item : ShelfItem.t := ShelfItem.mk 1 1 1 PLAN_TO_READ None None.

Definition db0 : Db := mkDb [alice; root] [matilda] [alice_item] 2 1 1.

(** The same store before anything was catalogued. *)
Definition db_empty_catalog : Db := mkDb [alice; root] [] [] 2 0 0.

Definition claims_of (sub : value) : list (string * value) :=
  [("sub", sub); ("username", PStr "someone"); ("role", PStr "USER")].

(** A verifier that knows five tokens. *)
Definition sec0 : security.t :=
  security.mk
    (fun token =>
       if String.eqb token "alice-token" then inr (claims_of (PStr "1"))
       else if String.eqb token "root-token" then inr (claims_of (PStr "2"))
       else if String.eqb token "gone-token" then inr (claims_of (PStr "77"))
       else if String.eqb token "odd-token" then inr (claims_of (PStr "one"))
       else if String.eqb token "anonymous-token" then inr [("username", PStr "x")]
       else if String.eqb token "old-token" then inl security.ExpiredSignatureError
       else inl security.BadSignatureOrMalformed)
    (fun password => ("hashed:" ++ password)%string).

(** The same verifier with one more token, issued for a subject one beyond
    the largest id [users.id] holds. *)
Definition sec_far : security.t :=
  security.mk
    (fun token =>
       if String.eqb token "far-token" then inr (claims_of (PStr "2147483648"))
       else security.decode sec0 token)
    (security.get_password_hash sec0).

Definition repr0 (v : value) : string :=
  match v with
  | PNone => "None"
  | PBool true => "True"
  | PBool false => "False"
  | _ => "<value>"
  end.

Definition isbn_request : ISBNSearch.t := ISBNSearch.mk " 9780140328721 ".

Definition payload (covers : value) : value :=
  PDict [("title", PStr "Matilda");
         ("authors", PList [PDict [("key", PStr "/authors/OL34184A")]]);
         ("covers", covers)].

(** Open Library answers the ISBN lookup, and the author lookup times out. *)
Definition net_author_timeout (covers : value) (n : nat) (url : string) : reply :=
  match n with
  | O => Responded (Response.mk 200 (Some (payload covers)))
  | _ => Failed (TimeoutException "timed out")
  end.

End sample.

(* ===================================================================== *)
(** ** Facts about computations that call the network                     *)
(* ===================================================================== *)

Module httpx_facts.
Import httpx.

Lemma run_from_bind {A B : Type} (net : nat -> string -> reply)
    (m : prog A) (f : A -> prog B) (n : nat) :
  run_from net n (bind m f) =
  let (a, c1) := run_from net n m in
  let (b, c2) := run_from net (n + List.length c1) (f a) in
  (b, c1 ++ c2).
Proof.
  revert n; induction m as [a | url timeout k IH]; intros n; simpl.
  - rewrite Nat.add_0_r. destruct (run_from net n (f a)); reflexivity.
  - rewrite IH.
    destruct (run_from net (S n) (k (net n url))) as [a c1]; simpl.
    rewrite Nat.add_succ_r.
    destruct (run_from net (S (n + List.length c1)) (f a)); reflexivity.
Qed.

Lemma run_from_returns {A : Type} (net : nat -> string -> reply)
    (m : prog A) (n : nat) :
  returns m (fst (run_from net n m)).
Proof.
  revert n; induction m as [a | url timeout k IH]; intros n; simpl.
  - constructor.
  - specialize (IH (net n url) (S n)).
    destruct (run_from net (S n) (k (net n url))); simpl in *.
    econstructor; eassumption.
Qed.

Lemma returns_Ret_inv {A : Type} (a b : A) : returns (Ret a) b -> a = b.
Proof. inversion 1; reflexivity. Qed.

Lemma returns_bind {A B : Type} (m : prog A) (f : A -> prog B) (b : B) :
  returns (bind m f) b -> exists a, returns m a /\ returns (f a) b.
Proof.
  induction m as [a | url timeout k IH]; simpl; intros H.
  - exists a; split; [constructor | assumption].
  - inversion H as [| ? ? ? r ? Hr]; subst.
    destruct (IH r Hr) as (a & Hm & Hf).
    exists a; split; [econstructor; eassumption | assumption].
Qed.

Lemma returns_bindM_Ok {A B : Type} (m : M A) (f : A -> M B) (b : B) :
  returns (bindM m f) (Ok b) ->
  exists a, returns m (Ok a) /\ returns (f a) (Ok b).
Proof.
  unfold bindM; intros H.
  apply returns_bind in H as ([a | e] & Hm & Hf).
  - eauto.
  - apply returns_Ret_inv in Hf; discriminate.
Qed.

Lemma returns_lift_Ok {A : Type} (r : python.res A) (a : A) :
  returns (lift r) (Ok a) -> r = python.Val a.
Proof.
  destruct r; simpl; intros H; apply returns_Ret_inv in H; congruence.
Qed.

Lemma silent_run {A : Type} (net : nat -> string -> reply) (m : prog A) (n : nat) :
  silent m -> snd (run_from net n m) = [].
Proof. intros [a ->]; reflexivity. Qed.

Lemma silent_lift {A : Type} (r : python.res A) : silent (lift r).
Proof. destruct r; eexists; reflexivity. Qed.

Lemma silent_bindM {A B : Type} (m : M A) (f : A -> M B) :
  silent m -> (forall a, silent (f a)) -> silent (bindM m f).
Proof.
  intros [[a | e] ->] Hf; unfold bindM; simpl.
  - apply Hf.
  - eexists; reflexivity.
Qed.

End httpx_facts.

(* ===================================================================== *)
(** ** ISBN search: cache, external calls, author fallback                *)
(* ===================================================================== *)

Module books_facts.
Import python httpx httpx_facts books.

Ltac split_match :=
  match goal with
  | |- context [match ?x with _ => _ end] => destruct x eqn:?
  end.

(** Reduction of the monad's plumbing only. *)
Ltac mred :=
  cbn [bindM bind ret raise lift try_except client_get json run_from fst snd].

Section Search.
Variable repr : value -> string.

Lemma silent_normalize_description (d : value) :
  silent (normalize_description repr d).
Proof.
  unfold normalize_description; destruct d; simpl; eexists; reflexivity.
Qed.


Lemma silent_normalize_cover (c : value) : silent (normalize_cover repr c).
Proof.
  unfold normalize_cover; destruct (truthy c).
  - apply silent_bindM; [apply silent_lift | intros; eexists; reflexivity].
  - eexists; reflexivity.
Qed.

Lemma normalize_title_is_str (v : value) :
  exists s, normalize_title v = PStr s /\ String.eqb s "" = false.
Proof.
  unfold normalize_title, Unknown_title.
  destruct v; simpl; try (eexists; split; reflexivity).
  - destruct b; eexists; split; reflexivity.
  - destruct (z =? 0); eexists; split; reflexivity.
  - destruct (String.eqb s "") eqn:He; simpl; eexists; split;
      solve [reflexivity | exact He].
  - destruct l; eexists; split; reflexivity.
  - destruct d; eexists; split; reflexivity.
Qed.

Lemma normalize_title_nonempty (v : value) (s : string) :
  normalize_title v = PStr s -> s <> ""%string.
Proof.
  intros H; destruct (normalize_title_is_str v) as (s' & Hs & He).
  rewrite H in Hs; inversion Hs; subst s'.
  apply String.eqb_neq; assumption.
Qed.

(** The author block makes the second call or none. *)
Lemma resolve_author_calls (net : nat -> string -> reply) (n : nat) (authors : value) :
  author_call_or_none repr (snd (run_from net n (resolve_author repr authors))).
Proof.
  unfold resolve_author, lookup_author_name.
  mred.
  destruct (truthy authors); [| left; reflexivity].
  destruct (len authors) as [k | e]; mred; [| left; reflexivity].
  destruct (0 <? k)%nat; [| left; reflexivity].
  destruct (item0 authors) as [first_author | e]; mred; [| left; reflexivity].
  destruct (isinstance_dict first_author).
  - destruct (get first_author "key" (PStr "")) as [key | e]; mred;
      [| left; reflexivity].
    destruct (truthy key); mred; [| left; reflexivity].
    right; exists key.
    destruct (net n (author_url repr key)) as [resp | e]; mred; [| reflexivity].
    destruct (Response.status_code resp =? 200); mred; [| reflexivity].
    unfold httpx.json.
    destruct (Response.json resp) as [author_data |]; mred; [| reflexivity].
    destruct (get author_data "name" Unknown_author); reflexivity.
  - destruct (isinstance_str first_author); left; reflexivity.
Qed.


Lemma add_book_Val (db db' : Db) (title author : value) (isbn description : string)
    (cover_url : option string) (b : Book.t) :
  add_book db title author isbn description cover_url = Val (b, db') ->
  Book.isbn b = Some isbn
  /\ Book.id b = books_id_seq db + 1
  /\ db' = mkDb (users db) (database.books db ++ [b]) (shelf_items db)
                (users_id_seq db) (books_id_seq db + 1) (shelf_items_id_seq db).
Proof.
  unfold add_book, insert_book; intros H.
  destruct title, author; try discriminate.
  destruct (isbn_taken db (Some isbn) (fun _ => false)); [discriminate |].
  inversion H; subst; simpl; auto.
Qed.

Lemma add_book_title (db db' : Db) (title author : value) (isbn description : string)
    (cover_url : option string) (b : Book.t) :
  add_book db title author isbn description cover_url = Val (b, db') ->
  title = PStr (Book.title b).
Proof.
  unfold add_book, insert_book; intros H.
  destruct title, author; try discriminate.
  destruct (isbn_taken db (Some isbn) (fun _ => false)); [discriminate |].
  inversion H; subst; reflexivity.
Qed.

Lemma normalize_and_store_Ok (isbn : string) (db db' : Db) (book_data : value)
    (b : Book.t) :
  returns (normalize_and_store repr isbn db book_data) (Ok (b, db')) ->
  Book.isbn b = Some isbn
  /\ Book.id b = books_id_seq db + 1
  /\ db' = mkDb (users db) (database.books db ++ [b]) (shelf_items db)
                (users_id_seq db) (books_id_seq db + 1) (shelf_items_id_seq db).
Proof.
  unfold normalize_and_store; intros H.
  apply returns_bindM_Ok in H as (title & _ & H).
  apply returns_bindM_Ok in H as (authors & _ & H).
  apply returns_bindM_Ok in H as (author & _ & H).
  apply returns_bindM_Ok in H as (d0 & _ & H).
  apply returns_bindM_Ok in H as (description & _ & H).
  apply returns_bindM_Ok in H as (covers & _ & H).
  apply returns_bindM_Ok in H as (cover_url & _ & H).
  apply returns_lift_Ok in H.
  eapply add_book_Val; eassumption.
Qed.

Lemma normalize_and_store_title (isbn : string) (db db' : Db) (book_data : value)
    (b : Book.t) :
  returns (normalize_and_store repr isbn db book_data) (Ok (b, db')) ->
  Book.title b <> ""%string.
Proof.
  unfold normalize_and_store; intros H.
  apply returns_bindM_Ok in H as (title & _ & H).
  apply returns_bindM_Ok in H as (authors & _ & H).
  apply returns_bindM_Ok in H as (author & _ & H).
  apply returns_bindM_Ok in H as (d0 & _ & H).
  apply returns_bindM_Ok in H as (description & _ & H).
  apply returns_bindM_Ok in H as (covers & _ & H).
  apply returns_bindM_Ok in H as (cover_url & _ & H).
  apply returns_lift_Ok in H.
  apply add_book_title in H.
  eapply normalize_title_nonempty; eassumption.
Qed.

Lemma normalize_and_store_calls (net : nat -> string -> reply) (n : nat)
    (isbn : string) (db : Db) (book_data : value) :
  author_call_or_none repr
    (snd (run_from net n (normalize_and_store repr isbn db book_data))).
Proof.
  unfold normalize_and_store.
  destruct (get book_data "title" Unknown_title) as [title | e]; mred;
    [| left; reflexivity].
  destruct (get book_data "authors" (PList [])) as [authors | e]; mred;
    [| left; reflexivity].
  unfold bindM at 1; rewrite run_from_bind.
  pose proof (resolve_author_calls net n authors) as Hc.
  destruct (run_from net n (resolve_author repr authors)) as [r c1].
  match goal with
  | |- context [run_from net ?k ?m] =>
      assert (Hs : silent m); [| destruct Hs as [x ->] ]
  end.
  - destruct r as [author | e]; [| eexists; reflexivity].
    repeat first [ apply silent_lift
                 | apply silent_normalize_description
                 | apply silent_normalize_cover
                 | apply silent_bindM; [| intros ] ].
  - simpl in *. rewrite app_nil_r. exact Hc.
Qed.

Lemma handle_Raise (db : Db) (e : raised) :
  exists e', handle db (Raise e) = (Raise e', db).
Proof.
  destruct e as [e | e]; [eexists; reflexivity |].
  destruct e; eexists; reflexivity.
Qed.

(** A catalogue miss: the first call is the ISBN lookup, at most the author
    lookup follows, and a book comes back only freshly inserted. *)
Lemma fetch_and_store_run (net : nat -> string -> reply) (isbn : string) (db : Db) :
  exists r rest,
    run_from net 0 (fetch_and_store repr isbn db) = (r, (isbn_url isbn, 10) :: rest)
    /\ author_call_or_none repr rest
    /\ forall b db', r = Ok (b, db') ->
         Book.isbn b = Some isbn
         /\ Book.id b = books_id_seq db + 1
         /\ db' = mkDb (users db) (database.books db ++ [b]) (shelf_items db)
                       (users_id_seq db) (books_id_seq db + 1) (shelf_items_id_seq db)
         /\ Book.title b <> ""%string.
Proof.
  unfold fetch_and_store; mred.
  destruct (net 0%nat (isbn_url isbn)) as [response | e]; mred.
  2: { do 2 eexists; split; [reflexivity |]; split; [left; reflexivity |].
       intros; discriminate. }
  destruct (Response.status_code response =? 404); mred.
  { do 2 eexists; split; [reflexivity |]; split; [left; reflexivity |].
    intros; discriminate. }
  destruct (negb (Response.status_code response =? 200)); mred.
  { do 2 eexists; split; [reflexivity |]; split; [left; reflexivity |].
    intros; discriminate. }
  unfold httpx.json.
  destruct (Response.json response) as [book_data |]; mred.
  2: { do 2 eexists; split; [reflexivity |]; split; [left; reflexivity |].
       intros; discriminate. }
  pose proof (normalize_and_store_calls net 1 isbn db book_data) as Hc.
  pose proof (run_from_returns net (normalize_and_store repr isbn db book_data) 1) as Hr.
  destruct (run_from net 1 (normalize_and_store repr isbn db book_data)) as [r rest].
  simpl in Hc, Hr.
  exists r, rest; split; [reflexivity |]; split; [exact Hc |].
  intros b db' ->.
  destruct (normalize_and_store_Ok isbn db db' book_data b Hr) as (Hisbn & Hid & Hdb).
  pose proof (normalize_and_store_title isbn db db' book_data b Hr) as Htitle.
  auto.
Qed.





(** A second search for the same ISBN, on the store the first one left:
    the book just inserted is found, so nothing is fetched. *)
Lemma search_again_hits_the_catalogue
    (isbn_request : ISBNSearch.t) (db db' : Db) (current_user other_user : User.t)
    (net : nat -> string -> reply) (new_book : Book.t) :
  first (filter (isbn_is (strip (ISBNSearch.isbn isbn_request))) (database.books db))
  = None ->
  fst (run net (search_book_by_isbn repr isbn_request db current_user))
  = (Ok new_book, db') ->
  forall net',
    run net' (search_book_by_isbn repr isbn_request db' other_user)
    = ((Ok new_book, db'), []).
Proof.
  intros Hmiss Hfirst net'.
  assert (Hnew : Book.isbn new_book = Some (strip (ISBNSearch.isbn isbn_request))
                 /\ database.books db' = database.books db ++ [new_book]).
  { revert Hfirst; unfold search_book_by_isbn, run.
    rewrite Hmiss, run_from_bind.
    destruct (fetch_and_store_run net (strip (ISBNSearch.isbn isbn_request)) db)
      as (r & rest & -> & _ & Hok).
    cbn [run_from fst snd].
    destruct r as [[b db''] | e].
    - simpl; intros H; inversion H; subst b db''.
      destruct (Hok new_book db' eq_refl) as (Hisbn & _ & -> & _); auto.
    - destruct (handle_Raise db e) as [e' ->]; discriminate. }
  destruct Hnew as [Hisbn Hdb].
  unfold search_book_by_isbn.
  assert (Hhit : first (filter (isbn_is (strip (ISBNSearch.isbn isbn_request)))
                               (database.books db')) = Some new_book).
  { rewrite Hdb; simpl. rewrite filter_app.
    unfold first in Hmiss.
    destruct (filter (isbn_is (strip (ISBNSearch.isbn isbn_request)))
                     (database.books db)); [| discriminate].
    simpl. unfold isbn_is at 1. rewrite Hisbn, String.eqb_refl. reflexivity. }
  rewrite Hhit; reflexivity.
Qed.

End Search.



(** Next to C2, a payload the handler cannot read: [covers] is a number,
    and [covers[0]] ends the request with 500, after the author lookup has
    timed out and whatever the author lookup would have answered. *)
Lemma unreadable_covers_end_the_request :
  let net := sample.net_author_timeout (PInt 5) in
  let out := run net (search_book_by_isbn sample.repr0 sample.isbn_request
                        sample.db_empty_catalog sample.alice) in
  snd out = [(isbn_url "9780140328721", 10);
             (author_url sample.repr0 (PStr "/authors/OL34184A"), 5)]
  /\ fst out
     = (Raise (Http (mkHTTPException 500 (Formatted "Unexpected error: " TypeError) [])),
        sample.db_empty_catalog)
  /\ forall author_reply,
       fst (run (fun n url => match n with
                              | O => net O url
                              | _ => author_reply
                              end)
                (search_book_by_isbn sample.repr0 sample.isbn_request
                   sample.db_empty_catalog sample.alice))
       = fst out.
Proof.
  split; [reflexivity |]; split; [reflexivity |].
  intros [[code body] | e]; [| reflexivity].
  cbn.
  destruct (code =? 200); [| reflexivity].
  destruct body as [author_data |]; [| reflexivity].
  destruct author_data; reflexivity.
Qed.

(** Next to C1, a book that does not pass the response model: Open Library
    names the author by an empty string.  The book is stored with an empty
    author and the request is answered 500; it is answered 500 again when
    the next search finds the book in the catalogue. *)
Lemma book_without_author_is_stored_and_answered_500 :
  let net := fun (n : nat) (url : string) =>
               Responded (Response.mk 200
                 (Some (PDict [("title", PStr "Matilda");
                               ("authors", PList [PStr ""])]))) in
  let nameless := Book.mk 1 "Matilda" "" (Some "9780140328721") (Some "") None in
  let db' := mkDb [sample.alice; sample.root] [nameless] [] 2 1 0 in
  run net (search_book_by_isbn sample.repr0 sample.isbn_request
             sample.db_empty_catalog sample.alice)
  = ((Ok nameless, db'), [(isbn_url "9780140328721", 10)])
  /\ app.search_by_isbn_response_status (Ok nameless, db') = 500
  /\ run net (search_book_by_isbn sample.repr0 sample.isbn_request db' sample.alice)
     = ((Ok nameless, db'), [])
  /\ app.Book_response_model nameless = false.
Proof. repeat split. Qed.

End books_facts.

(* ===================================================================== *)
(** ** Token verification                                                 *)
(* ===================================================================== *)

Module dependencies_facts.
Import python dependencies.

(** Why a token is answered with [credentials_exception]: the decoder
    refuses it (signature or format, expiry, claims), it has no subject, its
    subject is not an integer, or its subject is an id the column holds and
    no stored user has. *)
Inductive refused (sec : security.t) (db : Db) (token : string) : Prop :=
| bad_signature_or_malformed :
    security.decode sec token = inl security.BadSignatureOrMalformed ->
    refused sec db token
| expired :
    security.decode sec token = inl security.ExpiredSignatureError ->
    refused sec db token
| bad_claims :
    security.decode sec token = inl security.JWTClaimsError ->
    refused sec db token
| missing_subject (payload : list (string * value)) :
    security.decode sec token = inr payload ->
    assoc "sub" payload = None \/ assoc "sub" payload = Some PNone ->
    refused sec db token
| non_integer_subject (payload : list (string * value)) (sub : value) (e : exn) :
    security.decode sec token = inr payload ->
    assoc "sub" payload = Some sub ->
    int sub = Exc e ->
    refused sec db token
| unknown_user (payload : list (string * value)) (sub : value) (user_id : Z) :
    security.decode sec token = inr payload ->
    assoc "sub" payload = Some sub ->
    int sub = Val user_id ->
    in_int32 user_id = true ->
    (forall u, In u (users db) -> User.id u <> user_id) ->
    refused sec db token.

(** The one cause left: the subject is an integer beyond what [users.id]
    holds. *)
Definition subject_out_of_range (sec : security.t) (token : string) : Prop :=
  exists payload sub user_id,
    security.decode sec token = inr payload
    /\ assoc "sub" payload = Some sub
    /\ int sub = Val user_id
    /\ in_int32 user_id = false.

Lemma int_raises (v : value) (e : exn) :
  int v = Exc e -> e = ValueError \/ e = TypeError.
Proof.
  destruct v; simpl; try (intros H; inversion H; auto; fail).
  destruct (int_of_string s); intros H; inversion H; auto.
Qed.

Lemma first_filter_None {A : Type} (p : A -> bool) (rows : list A) :
  first (filter p rows) = None <-> forall x, In x rows -> p x = false.
Proof.
  induction rows as [| r rows IH]; simpl.
  - split; [intros _ x [] | reflexivity].
  - destruct (p r) eqn:Hr; simpl.
    + split; [discriminate |].
      intros H; specialize (H r (or_introl eq_refl)); congruence.
    + rewrite IH; split.
      * intros H x [<- | Hx]; auto.
      * intros H x Hx; apply H; auto.
Qed.

Lemma first_filter_Some {A : Type} (p : A -> bool) (rows : list A) (x : A) :
  first (filter p rows) = Some x -> In x rows /\ p x = true.
Proof.
  intros H.
  assert (Hin : In x (filter p rows)).
  { destruct (filter p rows); simpl in H; [discriminate |].
    inversion H; subst; left; reflexivity. }
  apply filter_In in Hin; exact Hin.
Qed.

Section WithSecurity.
Variable sec : security.t.

(** What the subject claim can be: null, not an integer, or an integer. *)
Lemma subject_cases (sub : value) :
  sub = PNone
  \/ (sub <> PNone /\ exists e, int sub = Exc e /\ (e = ValueError \/ e = TypeError))
  \/ (sub <> PNone /\ exists user_id, int sub = Val user_id).
Proof.
  destruct sub; simpl; auto.
  - right; right; split; [discriminate | eauto].
  - right; right; split; [discriminate | eauto].
  - destruct (int_of_string s).
    + right; right; split; [discriminate | eauto].
    + right; left; split; [discriminate | eauto].
  - right; left; split; [discriminate | eauto].
  - right; left; split; [discriminate | eauto].
Qed.

Lemma get_current_user_after_decode (db : Db) (token : string)
    (payload : list (string * value)) (sub : value) :
  security.decode sec token = inr payload ->
  assoc "sub" payload = Some sub ->
  sub <> PNone ->
  get_current_user sec token db =
  match int sub with
  | Exc _ => Raise (Http credentials_exception)
  | Val user_id =>
      if in_int32 user_id
      then
        match first (filter (fun u => User.id u =? user_id) (users db)) with
        | None => Raise (Http credentials_exception)
        | Some user => Ok user
        end
      else Raise (Unhandled (Exception "DBAPIError"))
  end.
Proof.
  intros Hdec Hsub Hnone; unfold get_current_user; rewrite Hdec, Hsub.
  destruct sub; try reflexivity; try congruence.
  simpl; destruct (int_of_string s); reflexivity.
Qed.

Lemma get_current_user_refused (db : Db) (token : string) :
  refused sec db token ->
  get_current_user sec token db = Raise (Http credentials_exception).
Proof.
  intros [H | H | H | payload H Hsub | payload sub e H Hsub Hint
          | payload sub user_id H Hsub Hint Hrange Hnone].
  1-3: unfold get_current_user; rewrite H; reflexivity.
  - unfold get_current_user; rewrite H.
    destruct Hsub as [-> | ->]; reflexivity.
  - destruct (subject_cases sub) as [-> | [[Hn _] | [Hn _]]];
      [unfold get_current_user; rewrite H, Hsub; reflexivity | |];
      rewrite (get_current_user_after_decode db token payload sub H Hsub Hn), Hint;
      reflexivity.
  - assert (Hn : sub <> PNone) by (intros ->; discriminate).
    rewrite (get_current_user_after_decode db token payload sub H Hsub Hn), Hint, Hrange.
    assert (Hf : first (filter (fun u => User.id u =? user_id) (users db)) = None).
    { apply first_filter_None; intros u Hu; apply Z.eqb_neq; auto. }
    rewrite Hf; reflexivity.
Qed.

Lemma get_current_user_out_of_range (db : Db) (token : string) :
  subject_out_of_range sec token ->
  get_current_user sec token db = Raise (Unhandled (Exception "DBAPIError")).
Proof.
  intros (payload & sub & user_id & H & Hsub & Hint & Hrange).
  assert (Hn : sub <> PNone) by (intros ->; discriminate).
  rewrite (get_current_user_after_decode db token payload sub H Hsub Hn), Hint, Hrange.
  reflexivity.
Qed.

Lemma get_current_user_Raise (db : Db) (token : string) (e : raised) :
  get_current_user sec token db = Raise e ->
  (e = Http credentials_exception /\ refused sec db token)
  \/ (e = Unhandled (Exception "DBAPIError") /\ subject_out_of_range sec token).
Proof.
  destruct (security.decode sec token) as [err | payload] eqn:Hdec.
  - unfold get_current_user; rewrite Hdec.
    intros H; inversion H; left; split; [reflexivity |].
    destruct err; [apply bad_signature_or_malformed | apply expired | apply bad_claims];
      assumption.
  - destruct (assoc "sub" payload) as [sub |] eqn:Hsub.
    2: { unfold get_current_user; rewrite Hdec, Hsub.
         intros H; inversion H; left; split; [reflexivity |].
         eapply missing_subject; eauto. }
    destruct (subject_cases sub) as [-> | [[Hn (err & Hint & _)] | [Hn (user_id & Hint)]]].
    + unfold get_current_user; rewrite Hdec, Hsub.
      intros H; inversion H; left; split; [reflexivity |].
      eapply missing_subject; eauto.
    + rewrite (get_current_user_after_decode db token payload sub Hdec Hsub Hn), Hint.
      intros H; inversion H; left; split; [reflexivity |].
      eapply non_integer_subject; eauto.
    + rewrite (get_current_user_after_decode db token payload sub Hdec Hsub Hn), Hint.
      destruct (in_int32 user_id) eqn:Hrange.
      * destruct (first (filter (fun u => User.id u =? user_id) (users db))) eqn:Hf;
          [discriminate |].
        intros H; inversion H; left; split; [reflexivity |].
        eapply unknown_user; eauto.
        intros u Hu; apply Z.eqb_neq.
        exact (proj1 (first_filter_None _ _) Hf u Hu).
      * intros H; inversion H; right; split; [reflexivity |].
        exists payload, sub, user_id; auto.
Qed.

(** Whatever makes verification fail short of the [select] (a signature or
    payload the decoder refuses, an expired token, no subject, a subject
    that is not an integer) and a subject within the column's range that no
    stored user has give the caller the same exception,
    [credentials_exception]: 401 with one fixed detail and header, and no
    other [HTTPException] is raised.  The token is refused in this way
    exactly in those cases.  What verification raises besides is the
    database error for a subject beyond the column's range. *)
Lemma get_current_user_rejections (db : Db) (token : string) :
  (refused sec db token <->
   get_current_user sec token db = Raise (Http credentials_exception))
  /\ (subject_out_of_range sec token <->
      get_current_user sec token db = Raise (Unhandled (Exception "DBAPIError")))
  /\ (forall e, get_current_user sec token db = Raise (Http e) ->
                e = credentials_exception)
  /\ status HTTP_200_OK (@Raise User.t (Http credentials_exception)) = 401.
Proof.
  split; [split | split; [split | split; [| reflexivity]]].
  - apply get_current_user_refused.
  - intros H; destruct (get_current_user_Raise db token _ H) as [[_ Hr] | [He _]];
      [exact Hr | discriminate].
  - apply get_current_user_out_of_range.
  - intros H; destruct (get_current_user_Raise db token _ H) as [[He _] | [_ Hr]];
      [discriminate | exact Hr].
  - intros e H; destruct (get_current_user_Raise db token _ H) as [[He _] | [He _]];
      [inversion He; reflexivity | discriminate].
Qed.

(** A user the verification returns is the stored user with the subject's
    id. *)
Lemma get_current_user_Ok (db : Db) (token : string) (u : User.t) :
  get_current_user sec token db = Ok u -> In u (users db).
Proof.
  destruct (security.decode sec token) as [err | payload] eqn:Hdec;
    [unfold get_current_user; rewrite Hdec; discriminate |].
  destruct (assoc "sub" payload) as [sub |] eqn:Hsub;
    [| unfold get_current_user; rewrite Hdec, Hsub; discriminate].
  destruct (subject_cases sub) as [-> | [[Hn (err & Hint & _)] | [Hn (user_id & Hint)]]].
  - unfold get_current_user; rewrite Hdec, Hsub; discriminate.
  - rewrite (get_current_user_after_decode db token payload sub Hdec Hsub Hn), Hint.
    discriminate.
  - rewrite (get_current_user_after_decode db token payload sub Hdec Hsub Hn), Hint.
    destruct (in_int32 user_id); [| discriminate].
    destruct (first (filter (fun u => User.id u =? user_id) (users db))) eqn:Hf;
      [| discriminate].
    intros H; inversion H; subst.
    apply first_filter_Some in Hf; tauto.
Qed.

End WithSecurity.


End dependencies_facts.

(* ===================================================================== *)
(** ** The ISBN search behind its dependency                              *)
(* ===================================================================== *)

Module app_facts.
Import httpx dependencies.




End app_facts.

(* ===================================================================== *)
(** ** Shelf: ownership                                                   *)
(* ===================================================================== *)

Module shelf_facts.
Import shelf dependencies_facts.

Lemma own_item_foreign (item_id : Z) (db : Db) (current_user : User.t)
    (item : ShelfItem.t) :
  In item (shelf_items db) ->
  ShelfItem.id item = item_id ->
  ShelfItem.user_id item <> User.id current_user ->
  (forall i j, In i (shelf_items db) -> In j (shelf_items db) ->
               ShelfItem.id i = ShelfItem.id j -> i = j) ->
  own_item item_id db current_user = None.
Proof.
  intros Hin Hid Howner Hkey; unfold own_item.
  apply first_filter_None; intros i Hi.
  apply filter_In in Hi as [Hi Hi_id].
  apply Z.eqb_eq in Hi_id.
  assert (i = item) by (apply Hkey; congruence); subst i.
  apply Z.eqb_neq; assumption.
Qed.

Lemma own_item_missing (item_id : Z) (db : Db) (current_user : User.t) :
  (forall i, In i (shelf_items db) -> ShelfItem.id i <> item_id) ->
  own_item item_id db current_user = None.
Proof.
  intros Hnone; unfold own_item.
  apply first_filter_None; intros i Hi.
  apply filter_In in Hi as [Hi Hi_id].
  apply Z.eqb_eq in Hi_id. destruct (Hnone i Hi Hi_id).
Qed.

(** C3, as amended.  When the item exists and belongs to another user, both
    the update and the delete answer 404 "Shelf item not found", the answer
    they give for an id no item has, and the store is left as it was.  ([id]
    is the primary key of the table.) *)
Theorem foreign_shelf_item_is_reported_missing (item_id : Z)
    (update_data : ShelfItemUpdate.t) (db : Db) (current_user : User.t)
    (item : ShelfItem.t) :
  In item (shelf_items db) ->
  ShelfItem.id item = item_id ->
  ShelfItem.user_id item <> User.id current_user ->
  (forall i j, In i (shelf_items db) -> In j (shelf_items db) ->
               ShelfItem.id i = ShelfItem.id j -> i = j) ->
  update_shelf_item item_id update_data db current_user
  = (abort 404 "Shelf item not found", db)
  /\ remove_from_shelf item_id db current_user
     = (abort 404 "Shelf item not found", db)
  /\ app.response_status HTTP_200_OK
       (update_shelf_item item_id update_data db current_user) = 404
  /\ app.response_status HTTP_204_NO_CONTENT
       (remove_from_shelf item_id db current_user) = 404.
Proof.
  intros Hin Hid Howner Hkey.
  unfold update_shelf_item, remove_from_shelf.
  rewrite (own_item_foreign item_id db current_user item Hin Hid Howner Hkey).
  repeat split.
Qed.

(** An id no item has gets the very same answers. *)
Lemma missing_shelf_item_is_reported_missing (item_id : Z)
    (update_data : ShelfItemUpdate.t) (db : Db) (current_user : User.t) :
  (forall i, In i (shelf_items db) -> ShelfItem.id i <> item_id) ->
  update_shelf_item item_id update_data db current_user
  = (abort 404 "Shelf item not found", db)
  /\ remove_from_shelf item_id db current_user
     = (abort 404 "Shelf item not found", db).
Proof.
  intros Hnone; unfold update_shelf_item, remove_from_shelf.
  rewrite (own_item_missing item_id db current_user Hnone); split; reflexivity.
Qed.

(** The owner's update touches the submitted fields only: with nothing but
    a rating in the request, status and review keep their values. *)
Lemma update_shelf_item_rating_only (item_id rating : Z) (db : Db)
    (current_user : User.t) (shelf_item : ShelfItem.t) :
  own_item item_id db current_user = Some shelf_item ->
  fst (update_shelf_item item_id (ShelfItemUpdate.mk None (Some rating) None)
         db current_user)
  = Ok (ShelfItem.mk (ShelfItem.id shelf_item) (ShelfItem.user_id shelf_item)
          (ShelfItem.book_id shelf_item) (ShelfItem.status shelf_item)
          (Some rating) (ShelfItem.review shelf_item)).
Proof.
  intros H; unfold update_shelf_item; rewrite H; reflexivity.
Qed.

(** C3, witness: the administrator addresses the item on alice's shelf. *)
Lemma foreign_shelf_item_is_reported_missing_witness :
  update_shelf_item 1 (ShelfItemUpdate.mk (Some READING) None None)
    sample.db0 sample.root
  = (abort 404 "Shelf item not found", sample.db0)
  /\ remove_from_shelf 1 sample.db0 sample.root
     = (abort 404 "Shelf item not found", sample.db0)
  /\ app.response_status HTTP_200_OK
       (update_shelf_item 1 (ShelfItemUpdate.mk (Some READING) None None)
          sample.db0 sample.root) = 404
  /\ app.response_status HTTP_204_NO_CONTENT
       (remove_from_shelf 1 sample.db0 sample.root) = 404.
Proof.
  apply (foreign_shelf_item_is_reported_missing 1
           (ShelfItemUpdate.mk (Some READING) None None)
           sample.db0 sample.root sample.alice_item).
  - left; reflexivity.
  - reflexivity.
  - simpl; lia.
  - intros i j [<- | []] [<- | []] _; reflexivity.
Defined.

(** C3, counterexample: the item of another user is answered 404, not 403. *)
Lemma foreign_shelf_item_is_not_forbidden :
  ~ (forall (item_id : Z) (update_data : ShelfItemUpdate.t) (db : Db)
            (current_user : User.t) (item : ShelfItem.t),
        In item (shelf_items db) ->
        ShelfItem.id item = item_id ->
        ShelfItem.user_id item <> User.id current_user ->
        app.response_status HTTP_200_OK
          (update_shelf_item item_id update_data db current_user) = 403
        /\ app.response_status HTTP_204_NO_CONTENT
             (remove_from_shelf item_id db current_user) = 403).
Proof.
  intros H.
  destruct (H 1 (ShelfItemUpdate.mk (Some READING) None None)
              sample.db0 sample.root sample.alice_item) as [H1 _].
  - left; reflexivity.
  - reflexivity.
  - simpl; lia.
  - vm_compute in H1; discriminate.
Qed.

End shelf_facts.

(* ===================================================================== *)
(** ** Users: who may read, change and delete                             *)
(* ===================================================================== *)

Module users_facts.
Import users dependencies_facts.

(** The update request without its [role] field. *)
Definition without_role (user_update : UserUpdate.t) : UserUpdate.t :=
  UserUpdate.mk (UserUpdate.username user_update) (UserUpdate.email user_update) None.

Lemma not_ADMIN (r : UserRole) : r <> ADMIN -> UserRole_eqb r ADMIN = false.
Proof. destruct r; [reflexivity | congruence]. Qed.

Lemma is_ADMIN (r : UserRole) : r = ADMIN -> UserRole_eqb r ADMIN = true.
Proof. intros ->; reflexivity. Qed.

Lemma apply_role_non_admin (user_update : UserUpdate.t) (current_user db_user : User.t) :
  User.role current_user <> ADMIN ->
  apply_role user_update current_user db_user = db_user.
Proof.
  intros H; unfold apply_role; rewrite (not_ADMIN _ H).
  destruct (UserUpdate.role user_update); reflexivity.
Qed.

Lemma apply_username_Ok (user_id : Z) (user_update : UserUpdate.t) (db : Db)
    (db_user u : User.t) :
  apply_username user_id user_update db db_user = Ok u ->
  User.id u = User.id db_user
  /\ User.role u = User.role db_user
  /\ User.email u = User.email db_user
  /\ User.hashed_password u = User.hashed_password db_user
  /\ User.username u = match UserUpdate.username user_update with
                       | Some name => name
                       | None => User.username db_user
                       end
  /\ match UserUpdate.username user_update with
     | Some name => username_taken db name (fun i => i =? user_id) = false
     | None => True
     end.
Proof.
  unfold apply_username.
  destruct (UserUpdate.username user_update) as [name |].
  - destruct (username_taken db name (fun i => i =? user_id)) eqn:Ht;
      [discriminate |].
    intros H; inversion H; subst; simpl; auto 10.
  - intros H; inversion H; subst; auto 10.
Qed.

Lemma apply_email_Ok (user_id : Z) (user_update : UserUpdate.t) (db : Db)
    (db_user u : User.t) :
  apply_email user_id user_update db db_user = Ok u ->
  User.id u = User.id db_user
  /\ User.role u = User.role db_user
  /\ User.username u = User.username db_user
  /\ User.hashed_password u = User.hashed_password db_user
  /\ User.email u = match UserUpdate.email user_update with
                    | Some mail => mail
                    | None => User.email db_user
                    end
  /\ match UserUpdate.email user_update with
     | Some mail => email_taken db mail (fun i => i =? user_id) = false
     | None => True
     end.
Proof.
  unfold apply_email.
  destruct (UserUpdate.email user_update) as [mail |].
  - destruct (email_taken db mail (fun i => i =? user_id)) eqn:Ht;
      [discriminate |].
    intros H; inversion H; subst; simpl; auto 10.
  - intros H; inversion H; subst; auto 10.
Qed.

Lemma database_update_user_Val (db db' : Db) (old new : User.t) :
  database.update_user db old new = python.Val db' ->
  database.users db'
  = map (fun u => if User.id u =? User.id old then new else u) (database.users db).
Proof.
  unfold database.update_user.
  match goal with |- context [if ?c then _ else _] => destruct c end;
    [discriminate |].
  intros H; inversion H; reflexivity.
Qed.

Lemma In_replaced_users (user_id : Z) (rows : list User.t) (db_user new u : User.t) :
  In db_user rows ->
  User.id db_user = user_id ->
  In u (map (fun x => if User.id x =? user_id then new else x) rows)
  <-> u = new \/ (In u rows /\ User.id u <> user_id).
Proof.
  intros Hin Hid; rewrite in_map_iff; split.
  - intros (x & Hx & Hxin).
    destruct (User.id x =? user_id) eqn:He.
    + left; congruence.
    + right; subst u; split; [assumption | apply Z.eqb_neq; assumption].
  - intros [-> | [Hu Hne]].
    + exists db_user; split; [| assumption].
      apply Z.eqb_eq in Hid; rewrite Hid; reflexivity.
    + exists u; split; [| assumption].
      apply Z.eqb_neq in Hne; rewrite Hne; reflexivity.
Qed.

(** What [update_user] stores and returns for a caller who is not an
    administrator and changes the own account. *)
Definition self_updated (user_update : UserUpdate.t) (db_user : User.t) : User.t :=
  User.mk (User.id db_user)
          (match UserUpdate.username user_update with
           | Some name => name
           | None => User.username db_user
           end)
          (match UserUpdate.email user_update with
           | Some mail => mail
           | None => User.email db_user
           end)
          (User.hashed_password db_user)
          (User.role db_user).

Lemma update_user_by_self (user_id : Z) (user_update : UserUpdate.t) (db : Db)
    (current_user db_user : User.t) :
  User.role current_user <> ADMIN ->
  User.id current_user = user_id ->
  first (filter (fun u => User.id u =? user_id) (database.users db)) = Some db_user ->
  (forall name, UserUpdate.username user_update = Some name ->
                username_taken db name (fun i => i =? user_id) = false) ->
  (forall mail, UserUpdate.email user_update = Some mail ->
                email_taken db mail (fun i => i =? user_id) = false) ->
  update_user user_id user_update db current_user
  = (Ok (self_updated user_update db_user),
     with_users db
       (map (fun u => if User.id u =? user_id then self_updated user_update db_user else u)
            (database.users db))).
Proof.
  intros Hcaller Hself Hfind Hname Hmail.
  pose proof (first_filter_Some _ _ _ Hfind) as [_ Hid]; apply Z.eqb_eq in Hid.
  unfold update_user.
  rewrite Hself, Z.eqb_refl, andb_false_r, Hfind.
  unfold apply_username, apply_email, self_updated.
  destruct db_user as [id0 name0 mail0 hash0 role0]; cbn [User.id] in Hid; subst id0.
  destruct (UserUpdate.username user_update) as [name |];
    [rewrite (Hname name eq_refl) |];
    (destruct (UserUpdate.email user_update) as [mail |];
     [rewrite (Hmail mail eq_refl) |]);
    rewrite apply_role_non_admin by assumption;
    unfold database.update_user, set_email, set_username;
    cbn [User.id User.username User.email User.hashed_password User.role];
    rewrite ?(Hname _ eq_refl), ?(Hmail _ eq_refl), ?String.eqb_refl, ?andb_false_r;
    reflexivity.
Qed.

(** C7.  A user who is not an administrator submits an update that carries
    a role.  The request is handled exactly as the same request without the
    role: the same response and the same store.  When the user changes the
    own account with a username and an email no other user holds, the
    request succeeds: the row returned and stored has the submitted username
    and email and the role the user had, every other row is still stored,
    and books and shelves are untouched.  And whenever such a request
    succeeds, the stored role is the one the user had. *)
Theorem update_user_role_ignored_unless_admin (user_id : Z)
    (user_update : UserUpdate.t) (db : Db) (current_user : User.t) (r : UserRole) :
  UserUpdate.role user_update = Some r ->
  User.role current_user <> ADMIN ->
  update_user user_id user_update db current_user
  = update_user user_id (without_role user_update) db current_user
  /\ (forall db_user,
        User.id current_user = user_id ->
        first (filter (fun u => User.id u =? user_id) (database.users db))
        = Some db_user ->
        (forall name, UserUpdate.username user_update = Some name ->
                      username_taken db name (fun i => i =? user_id) = false) ->
        (forall mail, UserUpdate.email user_update = Some mail ->
                      email_taken db mail (fun i => i =? user_id) = false) ->
        exists db',
          update_user user_id user_update db current_user
          = (Ok (self_updated user_update db_user), db')
          /\ User.role (self_updated user_update db_user) = User.role db_user
          /\ (forall u, In u (database.users db')
                        <-> u = self_updated user_update db_user
                            \/ (In u (database.users db) /\ User.id u <> user_id))
          /\ database.books db' = database.books db
          /\ database.shelf_items db' = database.shelf_items db)
  /\ (forall updated db',
        update_user user_id user_update db current_user = (Ok updated, db') ->
        exists db_user,
          first (filter (fun u => User.id u =? user_id) (database.users db))
          = Some db_user
          /\ updated = self_updated user_update db_user
          /\ User.role updated = User.role db_user
          /\ In updated (database.users db')).
Proof.
  intros Hrole Hcaller; split; [| split].
  - unfold update_user.
    destruct (negb (UserRole_eqb (User.role current_user) ADMIN)
              && negb (User.id current_user =? user_id)); [reflexivity |].
    destruct (first (filter (fun u => User.id u =? user_id) (database.users db)))
      as [db_user |]; [| reflexivity].
    unfold apply_username, apply_email, without_role; simpl.
    destruct (UserUpdate.username user_update) as [name |];
      [destruct (username_taken db name (fun i => i =? user_id)); [reflexivity |] |];
      (destruct (UserUpdate.email user_update) as [mail |];
       [destruct (email_taken db mail (fun i => i =? user_id)); [reflexivity |] |]);
      rewrite !apply_role_non_admin by assumption; reflexivity.
  - intros db_user Hself Hfind Hname Hmail.
    rewrite (update_user_by_self user_id user_update db current_user db_user
               Hcaller Hself Hfind Hname Hmail).
    pose proof (first_filter_Some _ _ _ Hfind) as [Hin Hid]; apply Z.eqb_eq in Hid.
    eexists; split; [reflexivity |].
    split; [reflexivity |].
    split; [| split; reflexivity].
    intros u; cbn [database.users with_users].
    apply (In_replaced_users user_id (database.users db) db_user); assumption.
  - intros updated db' Hrun.
    assert (Hself : User.id current_user = user_id).
    { revert Hrun; unfold update_user; rewrite (not_ADMIN _ Hcaller).
      destruct (User.id current_user =? user_id) eqn:He;
        [intros _; apply Z.eqb_eq; assumption | discriminate]. }
    assert (Hcond : exists db_user,
      first (filter (fun u => User.id u =? user_id) (database.users db)) = Some db_user
      /\ (forall name, UserUpdate.username user_update = Some name ->
                       username_taken db name (fun i => i =? user_id) = false)
      /\ (forall mail, UserUpdate.email user_update = Some mail ->
                       email_taken db mail (fun i => i =? user_id) = false)).
    { revert Hrun; unfold update_user.
      rewrite Hself, Z.eqb_refl, andb_false_r.
      destruct (first (filter (fun u => User.id u =? user_id) (database.users db)))
        as [db_user |]; [| discriminate].
      destruct (apply_username user_id user_update db db_user) as [with_name | e] eqn:Hn;
        [| discriminate].
      destruct (apply_email user_id user_update db with_name) as [with_mail | e] eqn:Hm;
        [| discriminate].
      intros _.
      apply apply_username_Ok in Hn as (_ & _ & _ & _ & _ & Hname).
      apply apply_email_Ok in Hm as (_ & _ & _ & _ & _ & Hmail).
      exists db_user; split; [reflexivity |]; split.
      - intros name Hs; rewrite Hs in Hname; exact Hname.
      - intros mail Hs; rewrite Hs in Hmail; exact Hmail. }
    destruct Hcond as (db_user & Hfind & Hname & Hmail).
    rewrite (update_user_by_self user_id user_update db current_user db_user
               Hcaller Hself Hfind Hname Hmail) in Hrun.
    inversion Hrun; subst updated db'; clear Hrun.
    pose proof (first_filter_Some _ _ _ Hfind) as [Hin Hid]; apply Z.eqb_eq in Hid.
    exists db_user; split; [assumption |].
    split; [reflexivity |]; split; [reflexivity |].
    cbn [database.users with_users].
    apply (In_replaced_users user_id (database.users db) db_user); auto.
Qed.

(** For an administrator the submitted role is the one stored. *)
Lemma update_user_role_applied_for_admin (user_id : Z)
    (user_update : UserUpdate.t) (db db' : Db) (current_user updated : User.t)
    (r : UserRole) :
  UserUpdate.role user_update = Some r ->
  User.role current_user = ADMIN ->
  update_user user_id user_update db current_user = (Ok updated, db') ->
  User.role updated = r.
Proof.
  intros Hrole Hadmin; unfold update_user.
  rewrite (is_ADMIN _ Hadmin); simpl.
  destruct (first (filter (fun u => User.id u =? user_id) (database.users db)))
    as [db_user |]; [| discriminate].
  destruct (apply_username user_id user_update db db_user) as [with_name | e];
    [| discriminate].
  destruct (apply_email user_id user_update db with_name) as [with_mail | e];
    [| discriminate].
  unfold apply_role; rewrite Hrole, (is_ADMIN _ Hadmin).
  destruct (database.update_user db db_user (set_role with_mail r)); [| discriminate].
  intros H; inversion H; reflexivity.
Qed.

(** C7, witness: alice renames herself and asks to become an administrator;
    she is renamed and stays a plain user. *)
Lemma update_user_role_ignored_unless_admin_witness :
  exists db',
    update_user 1 (UserUpdate.mk (Some "alicia") None (Some ADMIN)) sample.db0 sample.alice
    = (Ok (User.mk 1 "alicia" "alice@example.org" "h1" USER), db')
    /\ User.role (User.mk 1 "alicia" "alice@example.org" "h1" USER)
       = User.role sample.alice
    /\ (forall u, In u (database.users db')
                  <-> u = User.mk 1 "alicia" "alice@example.org" "h1" USER
                      \/ (In u (database.users sample.db0) /\ User.id u <> 1))
    /\ database.books db' = database.books sample.db0
    /\ database.shelf_items db' = database.shelf_items sample.db0.
Proof.
  assert (Hplain : User.role sample.alice <> ADMIN) by discriminate.
  destruct (update_user_role_ignored_unless_admin 1
              (UserUpdate.mk (Some "alicia") None (Some ADMIN))
              sample.db0 sample.alice ADMIN eq_refl Hplain)
    as (_ & Hsucceeds & _).
  apply (Hsucceeds sample.alice).
  - reflexivity.
  - reflexivity.
  - intros name H; inversion H; reflexivity.
  - intros mail H; discriminate.
Defined.

(** Alice's request succeeds: the name changes and the role stays. *)
Example alice_renames_herself :
  fst (update_user 1 (UserUpdate.mk (Some "alicia") None (Some ADMIN))
         sample.db0 sample.alice)
  = Ok (User.mk 1 "alicia" "alice@example.org" "h1" USER).
Proof. reflexivity. Qed.

(** C8.  A caller who is not an administrator is refused with 403, and an
    administrator who names their own id is refused with 400, a status other
    than 403; in both cases the handler hands back the store it was given,
    users and shelf items included. *)
Theorem delete_user_refusals (user_id : Z) (db : Db) (current_user : User.t) :
  User.role current_user <> ADMIN \/ User.id current_user = user_id ->
  exists e,
    delete_user user_id db current_user = (Raise (Http e), db)
    /\ (User.role current_user <> ADMIN ->
        e = mkHTTPException 403 (Text "Only administrators can delete users") [])
    /\ (User.role current_user = ADMIN ->
        e = mkHTTPException 400 (Text "Cannot delete your own account") []
        /\ app.response_status HTTP_204_NO_CONTENT
             (delete_user user_id db current_user) <> 403).
Proof.
  intros H; unfold delete_user.
  destruct (User.role current_user) eqn:Hrole; simpl.
  - eexists; split; [reflexivity |]; split; [reflexivity | discriminate].
  - destruct H as [H | H]; [congruence |].
    apply Z.eqb_eq in H; rewrite H.
    eexists; split; [reflexivity |]; split; [congruence |].
    intros _; split; [reflexivity | intros Heq; cbv in Heq; discriminate].
Qed.

(** Only an administrator, and never for their own id, gets past the two
    checks: any other outcome than a refusal implies both. *)
Lemma delete_user_only_admin (user_id : Z) (db db' : Db) (current_user : User.t) :
  delete_user user_id db current_user = (Ok tt, db') ->
  User.role current_user = ADMIN /\ User.id current_user <> user_id.
Proof.
  unfold delete_user.
  destruct (User.role current_user); simpl; [discriminate |].
  destruct (User.id current_user =? user_id) eqn:Hid; [discriminate |].
  intros _; split; [reflexivity | apply Z.eqb_neq; assumption].
Qed.

(** C8, witness: the administrator tries to delete the administrator. *)
Lemma delete_user_refusals_witness :
  exists e,
    delete_user 2 sample.db0 sample.root = (Raise (Http e), sample.db0)
    /\ (User.role sample.root <> ADMIN ->
        e = mkHTTPException 403 (Text "Only administrators can delete users") [])
    /\ (User.role sample.root = ADMIN ->
        e = mkHTTPException 400 (Text "Cannot delete your own account") []
        /\ app.response_status HTTP_204_NO_CONTENT
             (delete_user 2 sample.db0 sample.root) <> 403).
Proof.
  apply (delete_user_refusals 2 sample.db0 sample.root).
  right; reflexivity.
Defined.

(** C10.  A caller who is neither an administrator nor the user addressed
    gets 403 "Not authorized" from both handlers whatever the store holds:
    the answers for any two stores are the same, so they do not tell whether
    the id exists; and the store is handed back untouched. *)
Theorem foreign_user_is_forbidden_before_lookup (user_id : Z)
    (user_update : UserUpdate.t) (db1 db2 : Db) (current_user : User.t) :
  User.role current_user <> ADMIN ->
  User.id current_user <> user_id ->
  get_user user_id db1 current_user = (abort 403 "Not authorized", db1)
  /\ update_user user_id user_update db1 current_user
     = (abort 403 "Not authorized", db1)
  /\ fst (get_user user_id db1 current_user)
     = fst (get_user user_id db2 current_user)
  /\ fst (update_user user_id user_update db1 current_user)
     = fst (update_user user_id user_update db2 current_user)
  /\ app.response_status HTTP_200_OK (get_user user_id db1 current_user) = 403.
Proof.
  intros Hrole Hid.
  unfold get_user, update_user.
  rewrite (not_ADMIN _ Hrole).
  apply Z.eqb_neq in Hid; rewrite Hid; simpl.
  repeat split.
Qed.

(** C10, witness: alice asks for user 2, who exists in the first store and
    not in the second. *)
Lemma foreign_user_is_forbidden_before_lookup_witness :
  let user_update := UserUpdate.mk (Some "x") None None in
  let db2 := mkDb [sample.alice] [] [] 1 0 0 in
  get_user 2 sample.db0 sample.alice = (abort 403 "Not authorized", sample.db0)
  /\ update_user 2 user_update sample.db0 sample.alice
     = (abort 403 "Not authorized", sample.db0)
  /\ fst (get_user 2 sample.db0 sample.alice) = fst (get_user 2 db2 sample.alice)
  /\ fst (update_user 2 user_update sample.db0 sample.alice)
     = fst (update_user 2 user_update db2 sample.alice)
  /\ app.response_status HTTP_200_OK (get_user 2 sample.db0 sample.alice) = 403.
Proof.
  apply (foreign_user_is_forbidden_before_lookup 2
           (UserUpdate.mk (Some "x") None None)
           sample.db0 (mkDb [sample.alice] [] [] 1 0 0) sample.alice).
  - simpl; discriminate.
  - simpl; lia.
Defined.

End users_facts.

(* ===================================================================== *)
(** ** Books: who may change and delete                                   *)
(* ===================================================================== *)

Module books_role_facts.
Import books users_facts.

(** [delete_book] checks the role before it looks the book up. *)
Lemma delete_book_requires_admin (book_id : Z) (db : Db) (current_user : User.t) :
  User.role current_user <> ADMIN ->
  delete_book book_id db current_user
  = (abort 403 "Only administrators can delete books", db).
Proof.
  intros H; unfold delete_book; rewrite (not_ADMIN _ H); reflexivity.
Qed.

(** [update_book] never reads [current_user]. *)
Lemma update_book_ignores_caller (book_id : Z) (book_update : BookCreate.t)
    (db : Db) (caller other : User.t) :
  update_book book_id book_update db caller
  = update_book book_id book_update db other.
Proof. reflexivity. Qed.

(** C4, the failing input: alice, whose role is USER, rewrites a book. *)
Lemma update_book_by_plain_user_is_applied :
  let book_update := BookCreate.mk "Defaced" "Nobody" None None None in
  let out := app.PUT_books sample.sec0 (Some "alice-token") 1 book_update sample.db0 in
  dependencies.get_current_user sample.sec0 "alice-token" sample.db0 = Ok sample.alice
  /\ User.role sample.alice = USER
  /\ fst out = Ok (Book.mk 1 "Defaced" "Nobody" None None None)
  /\ app.response_status HTTP_200_OK out = 200
  /\ database.books (snd out) = [Book.mk 1 "Defaced" "Nobody" None None None]
  /\ app.response_status HTTP_204_NO_CONTENT
       (app.DELETE_books sample.sec0 (Some "alice-token") 1 sample.db0) = 403.
Proof. repeat split. Qed.

End books_role_facts.

(* ===================================================================== *)
(** ** Identity: unique usernames and emails                              *)
(* ===================================================================== *)

Module identity_facts.
Import dependencies_facts users_facts.

Section WithSecurity.
Variable sec : security.t.

(** Registration checks the username itself. *)
Lemma register_taken_username (user : UserCreate.t) (db : Db) (holder : User.t) :
  In holder (users db) ->
  User.username holder = UserCreate.username user ->
  auth.register sec user db = (abort 400 "Username already registered", db).
Proof.
  intros Hin Hname; unfold auth.register.
  destruct (first (filter (fun u => String.eqb (User.username u) (UserCreate.username user))
                          (users db))) eqn:Hf; [reflexivity |].
  pose proof (proj1 (first_filter_None _ _) Hf holder Hin) as H.
  simpl in H; rewrite Hname, String.eqb_refl in H; discriminate.
Qed.

(** Registration leaves the email to the unique index: with a fresh username
    and an email some user holds, the insert fails at commit, and the
    exception is not handled.  (The id sequence has not run out.) *)
Lemma register_taken_email (user : UserCreate.t) (db : Db) (holder : User.t) :
  in_int32 (users_id_seq db + 1) = true ->
  (forall u, In u (users db) -> User.username u <> UserCreate.username user) ->
  In holder (users db) ->
  User.email holder = UserCreate.email user ->
  auth.register sec user db = (Raise (Unhandled python.IntegrityError), db).
Proof.
  intros Hseq Hfresh Hin Hmail; unfold auth.register.
  assert (Hf : first (filter (fun u => String.eqb (User.username u) (UserCreate.username user))
                             (users db)) = None).
  { apply first_filter_None; intros u Hu; apply String.eqb_neq; auto. }
  rewrite Hf; unfold insert_user; rewrite Hseq; cbn [negb].
  assert (Ht : email_taken db (UserCreate.email user) (fun _ => false) = true).
  { unfold email_taken; apply existsb_exists; exists holder; split; [assumption |].
    rewrite Hmail, String.eqb_refl; reflexivity. }
  rewrite Ht, orb_true_r; reflexivity.
Qed.

Lemma free_username_not_In (db : Db) (name : string) :
  username_taken db name (fun _ => false) = false ->
  ~ In name (map User.username (users db)).
Proof.
  unfold username_taken; intros H Hin.
  apply in_map_iff in Hin as (u & Hu & Hin).
  apply not_true_iff_false in H; apply H.
  apply existsb_exists; exists u; split; [assumption |].
  rewrite Hu, String.eqb_refl; reflexivity.
Qed.

Lemma free_email_not_In (db : Db) (mail : string) :
  email_taken db mail (fun _ => false) = false ->
  ~ In mail (map User.email (users db)).
Proof.
  unfold email_taken; intros H Hin.
  apply in_map_iff in Hin as (u & Hu & Hin).
  apply not_true_iff_false in H; apply H.
  apply existsb_exists; exists u; split; [assumption |].
  rewrite Hu, String.eqb_refl; reflexivity.
Qed.

Lemma NoDup_snoc {A : Type} (l : list A) (x : A) :
  NoDup l -> ~ In x l -> NoDup (l ++ [x]).
Proof.
  intros Hl Hx; apply NoDup_app; [assumption | |].
  - constructor; [intros [] | constructor].
  - intros a Ha [<- | []]; contradiction.
Qed.

(** Whatever registration answers, the stored usernames and emails stay
    pairwise distinct: the check in the handler and the unique indexes
    together see to it. *)
Lemma register_keeps_identities_unique (user : UserCreate.t) (db : Db) :
  NoDup (map User.username (users db)) ->
  NoDup (map User.email (users db)) ->
  NoDup (map User.username (users (snd (auth.register sec user db))))
  /\ NoDup (map User.email (users (snd (auth.register sec user db)))).
Proof.
  intros Hnames Hmails; unfold auth.register.
  destruct (first (filter _ (users db))); [split; assumption |].
  unfold insert_user.
  destruct (in_int32 (users_id_seq db + 1)); cbn [negb]; [| split; assumption].
  destruct (username_taken db (UserCreate.username user) (fun _ => false)) eqn:Hn;
    [split; assumption |].
  destruct (email_taken db (UserCreate.email user) (fun _ => false)) eqn:Hm;
    [split; assumption |].
  simpl; rewrite !map_app; simpl; split; apply NoDup_snoc;
    auto using free_username_not_In, free_email_not_In.
Qed.

End WithSecurity.

(** The update checks both columns against the other users. *)
Lemma update_user_taken_email (user_id : Z) (user_update : UserUpdate.t) (db : Db)
    (current_user db_user holder : User.t) (mail : string) :
  User.role current_user = ADMIN \/ User.id current_user = user_id ->
  first (filter (fun u => User.id u =? user_id) (users db)) = Some db_user ->
  UserUpdate.username user_update = None ->
  UserUpdate.email user_update = Some mail ->
  In holder (users db) ->
  User.email holder = mail ->
  User.id holder <> user_id ->
  users.update_user user_id user_update db current_user
  = (abort 400 "Email already taken", db).
Proof.
  intros Hauth Hfind Hname Hmail Hin Hheld Hother; unfold users.update_user.
  assert (Hgate : negb (UserRole_eqb (User.role current_user) ADMIN)
                  && negb (User.id current_user =? user_id) = false).
  { destruct Hauth as [-> | <-]; [reflexivity |].
    rewrite Z.eqb_refl, andb_false_r; reflexivity. }
  rewrite Hgate, Hfind.
  unfold users.apply_username, users.apply_email; rewrite Hname, Hmail.
  assert (Ht : email_taken db mail (fun i => i =? user_id) = true).
  { unfold email_taken; apply existsb_exists; exists holder; split; [assumption |].
    rewrite Hheld, String.eqb_refl.
    apply Z.eqb_neq in Hother; rewrite Hother; reflexivity. }
  rewrite Ht; reflexivity.
Qed.

(** C5, the failing input: bob registers with alice's email.  The answer is
    the 500 of an unhandled [IntegrityError], not the 400 of a conflict. *)
Lemma register_with_taken_email_is_not_a_conflict :
  let out := auth.register sample.sec0
               (UserCreate.mk "bob" "alice@example.org" "pw") sample.db0 in
  out = (Raise (Unhandled python.IntegrityError), sample.db0)
  /\ app.response_status HTTP_200_OK out = 500
  /\ app.response_status HTTP_200_OK out <> 400.
Proof.
  repeat split. intros H; cbv in H; discriminate.
Qed.

End identity_facts.

(* ===================================================================== *)
(** ** [str] of an integer                                                *)
(* ===================================================================== *)

Module python_str.
Import python.

Definition digit_char (d : Z) : ascii := ascii_of_nat (48 + Z.to_nat d).

(** The decimal digits of [n], most significant first, in front of [tail];
    [fuel] bounds the number of digits. *)
Fixpoint decimal (fuel : nat) (n : Z) (tail : string) : string :=
  match fuel with
  | O => tail
  | S fuel' =>
      let tail' := String (digit_char (n mod 10)) tail in
      if n / 10 =? 0 then tail' else decimal fuel' (n / 10) tail'
  end.

(** Enough fuel for [n]: one more than its binary logarithm. *)
Definition digits_bound (n : Z) : nat := S (Z.to_nat (Z.log2 n)).

(** [str(n)] for an [int]. *)
Definition str_of_int (n : Z) : string :=
  if n <? 0
  then String "-"%char (decimal (digits_bound (- n)) (- n) EmptyString)
  else decimal (digits_bound n) n EmptyString.

Fixpoint no_space (s : string) : bool :=
  match s with
  | EmptyString => true
  | String c s' => negb (is_space c) && no_space s'
  end.

End python_str.

Module python_str_facts.
Import python python_str.

Lemma digit_cases (d : Z) :
  0 <= d < 10 ->
  d = 0 \/ d = 1 \/ d = 2 \/ d = 3 \/ d = 4 \/ d = 5 \/ d = 6 \/ d = 7 \/ d = 8 \/ d = 9.
Proof. lia. Qed.

Lemma digit_of_digit_char (d : Z) :
  0 <= d < 10 -> digit_of (digit_char d) = Some d.
Proof.
  intros H; destruct (digit_cases d H) as [-> | [-> | [-> | [-> | [-> | [-> | [-> | [-> | [-> | ->]]]]]]]]];
    reflexivity.
Qed.

Lemma digit_char_plain (d : Z) :
  0 <= d < 10 ->
  is_space (digit_char d) = false
  /\ forall r acc,
       match String (digit_char d) r with
       | String "-"%char r' => option_map Z.opp (digits r' acc false)
       | String "+"%char r' => digits r' acc false
       | s => digits s acc false
       end = digits (String (digit_char d) r) acc false.
Proof.
  intros H; destruct (digit_cases d H) as [-> | [-> | [-> | [-> | [-> | [-> | [-> | [-> | [-> | ->]]]]]]]]];
    split; reflexivity.
Qed.

Lemma digit_char_no_sign {T : Type} (d : Z) (plus minus other : T) :
  0 <= d < 10 ->
  match digit_char d with
  | "+"%char => plus
  | "-"%char => minus
  | _ => other
  end = other.
Proof.
  intros H; destruct (digit_cases d H) as [-> | [-> | [-> | [-> | [-> | [-> | [-> | [-> | [-> | ->]]]]]]]]];
    reflexivity.
Qed.

Lemma digits_decimal (fuel : nat) (n : Z) (tail : string) (b : bool) :
  0 <= n < 10 ^ Z.of_nat (S fuel) ->
  digits (decimal (S fuel) n tail) 0 b = digits tail n true.
Proof.
  revert n tail b; induction fuel as [| fuel IH]; intros n tail b Hn.
  - change (10 ^ Z.of_nat 1) with 10 in Hn.
    assert (Hq : n / 10 = 0) by (apply Z.div_small; lia).
    assert (Hm : n mod 10 = n) by (apply Z.mod_small; lia).
    cbn [decimal]; rewrite Hq, Hm; cbn [Z.eqb digits].
    rewrite digit_of_digit_char by lia.
    f_equal; lia.
  - assert (Hmod : 0 <= n mod 10 < 10) by (apply Z.mod_pos_bound; lia).
    assert (Hsplit : n = 10 * (n / 10) + n mod 10) by (apply Z.div_mod; lia).
    remember (S fuel) as fuel1.
    cbn [decimal].
    destruct (n / 10 =? 0) eqn:Hq.
    + apply Z.eqb_eq in Hq.
      cbn [digits]; rewrite digit_of_digit_char by lia.
      f_equal; lia.
    + subst fuel1; rewrite IH.
      * cbn [digits]; rewrite digit_of_digit_char by lia.
        f_equal; lia.
      * split; [apply Z.div_pos; lia |].
        apply Z.div_lt_upper_bound; [lia |].
        replace (Z.of_nat (S (S fuel))) with (Z.succ (Z.of_nat (S fuel))) in Hn by lia.
        rewrite Z.pow_succ_r in Hn by lia. lia.
Qed.

Lemma decimal_head (fuel : nat) (n : Z) (tail : string) :
  0 <= n ->
  exists d rest, 0 <= d < 10 /\ decimal (S fuel) n tail = String (digit_char d) rest.
Proof.
  revert n tail; induction fuel as [| fuel IH]; intros n tail Hn.
  - assert (Hmod : 0 <= n mod 10 < 10) by (apply Z.mod_pos_bound; lia).
    cbn [decimal]; destruct (n / 10 =? 0); eauto.
  - assert (Hmod : 0 <= n mod 10 < 10) by (apply Z.mod_pos_bound; lia).
    remember (S fuel) as fuel1; cbn [decimal]; subst fuel1.
    destruct (n / 10 =? 0); [eauto |].
    apply IH; apply Z.div_pos; lia.
Qed.

Lemma no_space_decimal (fuel : nat) (n : Z) (tail : string) :
  0 <= n -> no_space tail = true -> no_space (decimal fuel n tail) = true.
Proof.
  revert n tail; induction fuel as [| fuel IH]; intros n tail Hn Ht; [assumption |].
  assert (Hmod : 0 <= n mod 10 < 10) by (apply Z.mod_pos_bound; lia).
  assert (Ht' : no_space (String (digit_char (n mod 10)) tail) = true).
  { cbn [no_space]; rewrite (proj1 (digit_char_plain _ Hmod)); assumption. }
  cbn [decimal]; destruct (n / 10 =? 0); [assumption |].
  apply IH; [apply Z.div_pos; lia | assumption].
Qed.

(** What [int()] skips is among what [str.strip()] removes. *)
Lemma is_c_space_is_space (c : ascii) : is_space c = false -> is_c_space c = false.
Proof.
  destruct c as [[] [] [] [] [] [] [] []]; vm_compute; auto.
Qed.

Lemma skip_leading_no_space (s : string) : no_space s = true -> skip_leading s = s.
Proof.
  destruct s as [| c s]; [reflexivity |]; cbn [no_space skip_leading]; intros H.
  apply andb_prop in H as [H _]; apply negb_true_iff in H.
  rewrite (is_c_space_is_space c H); reflexivity.
Qed.

Lemma skip_trailing_no_space (s : string) : no_space s = true -> skip_trailing s = s.
Proof.
  induction s as [| c s IH]; [reflexivity |]; cbn [no_space skip_trailing]; intros H.
  apply andb_prop in H as [Hc Hs]; apply negb_true_iff in Hc.
  rewrite (IH Hs), (is_c_space_is_space c Hc); destruct s; reflexivity.
Qed.

Lemma count_digits_decimal (fuel : nat) (n : Z) (tail : string) :
  count_digits (decimal fuel n tail) <= Z.of_nat fuel + count_digits tail.
Proof.
  revert n tail; induction fuel as [| fuel IH]; intros n tail; [cbn [decimal]; lia |].
  assert (Ht : count_digits (String (digit_char (n mod 10)) tail) <= 1 + count_digits tail).
  { cbn [count_digits]; destruct (digit_of (digit_char (n mod 10))); lia. }
  cbn [decimal]; destruct (n / 10 =? 0); [lia |].
  specialize (IH (n / 10) (String (digit_char (n mod 10)) tail)); lia.
Qed.

(** The ids a column holds are written with far fewer digits than [int()]
    reads. *)
Lemma count_digits_in_int32 (n : Z) :
  in_int32 n = true -> count_digits (str_of_int n) <= max_str_digits.
Proof.
  unfold in_int32; intros H; apply andb_prop in H as [Hlo Hhi].
  apply Z.leb_le in Hlo; apply Z.ltb_lt in Hhi.
  change (- 2 ^ 31) with (- 2147483648) in Hlo; change (2 ^ 31) with 2147483648 in Hhi.
  assert (Hlog : forall m, 0 <= m <= 2147483648 -> Z.of_nat (digits_bound m) <= 32).
  { intros m Hm; unfold digits_bound.
    assert (Z.log2 m <= Z.log2 2147483648) by (apply Z.log2_le_mono; lia).
    change (Z.log2 2147483648) with 31 in *.
    pose proof (Z.log2_nonneg m); lia. }
  unfold str_of_int, max_str_digits; destruct (n <? 0) eqn:Hsign.
  - apply Z.ltb_lt in Hsign; cbn [count_digits].
    change (digit_of "-"%char) with (@None Z); cbv beta iota.
    pose proof (count_digits_decimal (digits_bound (- n)) (- n) EmptyString) as Hc.
    cbn [count_digits] in Hc; specialize (Hlog (- n)); lia.
  - apply Z.ltb_ge in Hsign.
    pose proof (count_digits_decimal (digits_bound n) n EmptyString) as Hc.
    cbn [count_digits] in Hc; specialize (Hlog n); lia.
Qed.

Lemma digits_bound_enough (n : Z) :
  0 <= n -> n < 10 ^ Z.of_nat (digits_bound n).
Proof.
  intros Hn; unfold digits_bound.
  assert (Hlog : 0 <= Z.log2 n) by apply Z.log2_nonneg.
  replace (Z.of_nat (S (Z.to_nat (Z.log2 n)))) with (Z.succ (Z.log2 n)) by lia.
  destruct (Z.eq_dec n 0) as [-> | Hnz]; [reflexivity |].
  assert (H2 : n < 2 ^ Z.succ (Z.log2 n)) by (apply Z.log2_spec; lia).
  assert (H10 : 2 ^ Z.succ (Z.log2 n) <= 10 ^ Z.succ (Z.log2 n))
    by (apply Z.pow_le_mono_l; lia).
  lia.
Qed.

Lemma int_of_decimal (n : Z) :
  0 <= n ->
  no_space (decimal (digits_bound n) n EmptyString) = true
  /\ digits (decimal (digits_bound n) n EmptyString) 0 false = Some n.
Proof.
  intros Hn; split.
  - apply no_space_decimal; [assumption | reflexivity].
  - unfold digits_bound; rewrite digits_decimal; [reflexivity |].
    split; [assumption | apply (digits_bound_enough n Hn)].
Qed.

(** Reading back what [str] wrote: [int(str(n)) == n] for every integer
    written with no more digits than [int()] reads. *)
Lemma int_of_str_of_int (n : Z) :
  count_digits (str_of_int n) <= max_str_digits ->
  int (PStr (str_of_int n)) = Val n.
Proof.
  intros Hlen; apply Z.ltb_ge in Hlen; revert Hlen.
  unfold int, int_of_string, str_of_int.
  destruct (n <? 0) eqn:Hsign.
  - apply Z.ltb_lt in Hsign.
    destruct (int_of_decimal (- n)) as [Hs Hd]; [lia |].
    assert (Hs' : no_space (String "-"%char
                     (decimal (digits_bound (- n)) (- n) EmptyString)) = true)
      by (cbn [no_space is_space]; exact Hs).
    rewrite (skip_leading_no_space _ Hs'), (skip_trailing_no_space _ Hs').
    cbv zeta; intros ->.
    rewrite Hd; cbn [option_map]; f_equal; lia.
  - apply Z.ltb_ge in Hsign.
    destruct (int_of_decimal n Hsign) as [Hs Hd].
    rewrite (skip_leading_no_space _ Hs), (skip_trailing_no_space _ Hs).
    cbv zeta; intros ->.
    unfold digits_bound in *.
    destruct (decimal_head (Z.to_nat (Z.log2 n)) n EmptyString Hsign)
      as (d & rest & Hdigit & Hhead).
    rewrite Hhead in Hd |- *.
    rewrite (digit_char_no_sign d _ _ _ Hdigit), Hd; reflexivity.
Qed.

End python_str_facts.

(* ===================================================================== *)
(** ** app/routers/books.py: the two reading routes                       *)
(* ===================================================================== *)

Module books_read.

(** The integers the driver passes as [OFFSET] and [LIMIT]: 64-bit and,
    for the database, not negative. *)
Definition offset_or_limit (n : Z) : bool := (0 <=? n) && (n <? 2 ^ 63).

Definition get_all_books (skip limit : Z) (db : Db) : result (list Book.t) * Db :=
  if offset_or_limit skip && offset_or_limit limit
  then (Ok (firstn (Z.to_nat limit) (skipn (Z.to_nat skip) (books db))), db)
  else (Raise (Unhandled (python.Exception "DBAPIError")), db).

Definition get_book (book_id : Z) (db : Db) : result Book.t * Db :=
  match first (filter (fun b => Book.id b =? book_id) (books db)) with
  | None => (abort 404 "Book not found", db)
  | Some book => (Ok book, db)
  end.

End books_read.

(* ===================================================================== *)
(** ** app/routers/users.py: the listing                                  *)
(* ===================================================================== *)

Module users_read.

Definition get_all_users (db : Db) (current_user : User.t)
  : result (list User.t) * Db :=
  if negb (UserRole_eqb (User.role current_user) ADMIN)
  then (abort 403 "Only administrators can view all users", db)
  else (Ok (users db), db).

End users_read.

(* ===================================================================== *)
(** ** app/routers/shelf.py: reading the shelf and adding to it           *)
(* ===================================================================== *)

Module shelf_add.

Module ShelfItemCreate.
Record t : Type := mk
  { status : ReadingStatus;
    rating : option Z;
    review : option string;
    book_id : Z }.
End ShelfItemCreate.

(** [selectinload(models.ShelfItem.book)]: the book a shelf item refers to. *)
Definition book_of (db : Db) (i : ShelfItem.t) : option Book.t :=
  first (filter (fun b => Book.id b =? ShelfItem.book_id i) (books db)).

Definition get_my_shelf (db : Db) (current_user : User.t)
  : result (list (ShelfItem.t * option Book.t)) * Db :=
  (Ok (map (fun i => (i, book_of db i))
           (filter (fun i => ShelfItem.user_id i =? User.id current_user)
                   (shelf_items db))),
   db).

(** [db.add(new_shelf_item); await db.commit(); await db.refresh(...)]: the
    row refers to a stored user and a stored book. *)
Definition insert_shelf_item (db : Db) (user_id book_id : Z)
    (status : ReadingStatus) (rating : option Z) (review : option string)
  : python.res (ShelfItem.t * Db) :=
  if existsb (fun u => User.id u =? user_id) (users db)
     && existsb (fun b => Book.id b =? book_id) (books db)
  then
    let new_id := shelf_items_id_seq db + 1 in
    let row := ShelfItem.mk new_id user_id book_id status rating review in
    python.Val (row,
                mkDb (users db) (books db) (shelf_items db ++ [row])
                     (users_id_seq db) (books_id_seq db) new_id)
  else python.Exc python.IntegrityError.

(** The caller's item for a book, if there is one. *)
Definition on_shelf (db : Db) (user_id book_id : Z) : option ShelfItem.t :=
  first (filter (fun i => (ShelfItem.user_id i =? user_id)
                          && (ShelfItem.book_id i =? book_id))
                (shelf_items db)).

(** The new item is returned with its book attached. *)
Definition add_book_to_shelf (item : ShelfItemCreate.t) (db : Db)
    (current_user : User.t) : result (ShelfItem.t * Book.t) * Db :=
  match first (filter (fun b => Book.id b =? ShelfItemCreate.book_id item) (books db)) with
  | None => (abort 404 "Book not found", db)
  | Some book =>
      match on_shelf db (User.id current_user) (ShelfItemCreate.book_id item) with
      | Some existing_item => (abort 400 "Book already on your shelf", db)
      | None =>
          match insert_shelf_item db (User.id current_user)
                  (ShelfItemCreate.book_id item) (ShelfItemCreate.status item)
                  (ShelfItemCreate.rating item) (ShelfItemCreate.review item) with
          | python.Exc e => (Raise (Unhandled e), db)
          | python.Val (new_shelf_item, db') => (Ok (new_shelf_item, book), db')
          end
      end
  end.

End shelf_add.

(* ===================================================================== *)
(** ** app/routers/auth.py: login and the current user                    *)
(* ===================================================================== *)

Module auth_token.
Import python.

(** What the login takes from [app/security.py]. *)
Module Issuer.
Record t : Type := mk
  { verify_password : string -> string -> bool;
    create_access_token : list (string * value) -> Z -> string;
    ACCESS_TOKEN_EXPIRE_MINUTES : Z }.
End Issuer.

Module OAuth2PasswordRequestForm.
Record t : Type := mk
  { username : string;
    password : string }.
End OAuth2PasswordRequestForm.

Module Token.
Record t : Type := mk
  { access_token : string;
    token_type : string }.
End Token.

(** [role.value] *)
Definition UserRole_value (r : UserRole) : string :=
  match r with
  | USER => "USER"
  | ADMIN => "ADMIN"
  end.

Definition incorrect_credentials : HTTPException :=
  mkHTTPException HTTP_401_UNAUTHORIZED
    (Text "Incorrect username or password")
    [("WWW-Authenticate", "Bearer")].

(** The [data] of the token issued for [user]. *)
Definition token_data (user : User.t) : list (string * value) :=
  [("sub", PStr (python_str.str_of_int (User.id user)));
   ("username", PStr (User.username user));
   ("role", PStr (UserRole_value (User.role user)))].

Section WithIssuer.
Variable iss : Issuer.t.

Definition login_for_access_token (form_data : OAuth2PasswordRequestForm.t)
    (db : Db) : result Token.t * Db :=
  match first (filter (fun u => String.eqb (User.username u)
                                  (OAuth2PasswordRequestForm.username form_data))
                      (users db)) with
  | None => (Raise (Http incorrect_credentials), db)
  | Some user =>
      if negb (Issuer.verify_password iss
                 (OAuth2PasswordRequestForm.password form_data)
                 (User.hashed_password user))
      then (Raise (Http incorrect_credentials), db)
      else
        let access_token_expires := Issuer.ACCESS_TOKEN_EXPIRE_MINUTES iss in
        let access_token :=
          Issuer.create_access_token iss (token_data user) access_token_expires in
        (Ok (Token.mk access_token "bearer"), db)
  end.

End WithIssuer.

Definition get_current_user_info (current_user : User.t) : User.t := current_user.

(** [GET /auth/me] *)
Definition GET_auth_me (sec : security.t) (authorization : option string) (db : Db)
  : result User.t * Db :=
  dependencies.Depends_current_user sec authorization db
    (fun e => (Raise e, db))
    (fun current_user => (Ok (get_current_user_info current_user), db)).

End auth_token.

(* ===================================================================== *)
(** ** More on the ISBN search                                            *)
(* ===================================================================== *)

Module search_facts.
Import python httpx httpx_facts books books_facts dependencies_facts.

(** The ISBN lookup did not produce a payload: the client raised, or the
    status is not 200. *)
Definition primary_failed (r : reply) : Prop :=
  match r with
  | Failed _ => True
  | Responded resp => Response.status_code resp <> 200
  end.

(** The status the handler answers a failed ISBN lookup with. *)
Definition primary_failure_status (r : reply) : Z :=
  match r with
  | Failed (TimeoutException _) => 504
  | Failed _ => 500
  | Responded resp => if Response.status_code resp =? 404 then 404 else 500
  end.

Section Search.
Variable repr : value -> string.

(** When the ISBN lookup fails, the request ends there: one call, no author
    lookup, the store as it was, and 504 for a timeout, 404 for an upstream
    404, 500 for anything else. *)
Theorem primary_lookup_failure_ends_the_request
    (isbn_request : ISBNSearch.t) (db : Db) (current_user : User.t)
    (net : nat -> string -> reply) :
  let isbn := strip (ISBNSearch.isbn isbn_request) in
  first (filter (isbn_is isbn) (database.books db)) = None ->
  primary_failed (net 0%nat (isbn_url isbn)) ->
  exists e,
    run net (search_book_by_isbn repr isbn_request db current_user)
    = ((Raise (Http e), db), [(isbn_url isbn, 10)])
    /\ status_code e = primary_failure_status (net 0%nat (isbn_url isbn)).
Proof.
  intros isbn Hmiss Hfail.
  unfold search_book_by_isbn; fold isbn; rewrite Hmiss.
  unfold run, fetch_and_store; mred.
  destruct (net 0%nat (isbn_url isbn)) as [resp | e]; mred.
  - simpl in Hfail; unfold primary_failure_status.
    destruct (Response.status_code resp =? 404) eqn:H404; mred.
    + eexists; split; reflexivity.
    + apply Z.eqb_neq in Hfail; rewrite Hfail; mred.
      eexists; split; reflexivity.
  - destruct e; eexists; split; reflexivity.
Qed.

Lemma length_prefix (n : nat) (s : string) : (String.length (prefix n s) <= n)%nat.
Proof.
  unfold prefix; revert s; induction n as [| n IH]; intros s.
  - destruct s; simpl; lia.
  - destruct s as [| c s]; simpl; [lia |].
    specialize (IH s); lia.
Qed.

Lemma normalize_description_bounded (d : value) (text : string) :
  returns (normalize_description repr d) (Ok text) ->
  Z.of_nat (String.length text) <= 10000.
Proof.
  intros H.
  assert (Hshape : exists t,
    normalize_description repr d
    = ret (if 10000 <? Z.of_nat (String.length t)
           then prefix (Z.to_nat 10000) t else t)).
  { unfold normalize_description; destruct d; simpl; eexists; reflexivity. }
  destruct Hshape as [t Ht]; rewrite Ht in H.
  apply returns_Ret_inv in H; injection H as <-.
  destruct (10000 <? Z.of_nat (String.length t)) eqn:Hlong.
  - change (Z.of_nat (String.length (prefix (Z.to_nat 10000) t)) <= 10000).
    pose proof (length_prefix (Z.to_nat 10000) t); lia.
  - apply Z.ltb_ge in Hlong; assumption.
Qed.

Lemma add_book_fields (db db' : Db) (title author : value) (isbn description : string)
    (cover_url : option string) (b : Book.t) :
  add_book db title author isbn description cover_url = Val (b, db') ->
  title = PStr (Book.title b)
  /\ author = PStr (Book.author b)
  /\ Book.description b = Some description
  /\ Book.cover_url b = cover_url.
Proof.
  unfold add_book, insert_book; intros H.
  destruct title, author; try discriminate.
  destruct (isbn_taken db (Some isbn) (fun _ => false)); [discriminate |].
  inversion H; subst; simpl; auto.
Qed.

Lemma normalize_and_store_fields (isbn : string) (db db' : Db) (book_data : value)
    (b : Book.t) :
  returns (normalize_and_store repr isbn db book_data) (Ok (b, db')) ->
  Book.title b <> ""%string
  /\ exists text, Book.description b = Some text
                  /\ Z.of_nat (String.length text) <= 10000.
Proof.
  unfold normalize_and_store; intros H.
  apply returns_bindM_Ok in H as (title & _ & H).
  apply returns_bindM_Ok in H as (authors & _ & H).
  apply returns_bindM_Ok in H as (author & _ & H).
  apply returns_bindM_Ok in H as (d0 & _ & H).
  apply returns_bindM_Ok in H as (description & Hd & H).
  apply returns_bindM_Ok in H as (covers & _ & H).
  apply returns_bindM_Ok in H as (cover_url & _ & H).
  apply returns_lift_Ok in H.
  apply add_book_fields in H as (Ht & _ & Hdesc & _).
  split.
  - eapply normalize_title_nonempty; eassumption.
  - exists description; split; [assumption |].
    eapply normalize_description_bounded; eassumption.
Qed.

(** What a search returns ends one of two ways. *)
Lemma search_outcome (isbn_request : ISBNSearch.t) (db db' : Db)
    (current_user : User.t) (net : nat -> string -> reply) (new_book : Book.t) :
  first (filter (isbn_is (strip (ISBNSearch.isbn isbn_request))) (database.books db))
  = None ->
  fst (run net (search_book_by_isbn repr isbn_request db current_user))
  = (Ok new_book, db') ->
  returns (fetch_and_store repr (strip (ISBNSearch.isbn isbn_request)) db)
          (Ok (new_book, db')).
Proof.
  intros Hmiss; unfold search_book_by_isbn, run.
  rewrite Hmiss, run_from_bind.
  pose proof (run_from_returns net
                (fetch_and_store repr (strip (ISBNSearch.isbn isbn_request)) db) 0)
    as Hr.
  destruct (run_from net 0
              (fetch_and_store repr (strip (ISBNSearch.isbn isbn_request)) db))
    as [r calls].
  cbn [run_from fst snd] in *.
  destruct r as [[b db''] | e].
  - simpl; intros H; inversion H; subst; assumption.
  - destruct (handle_Raise db e) as [e' ->]; discriminate.
Qed.

Lemma fetch_and_store_Ok (isbn : string) (db db' : Db) (b : Book.t) :
  returns (fetch_and_store repr isbn db) (Ok (b, db')) ->
  exists book_data, returns (normalize_and_store repr isbn db book_data) (Ok (b, db')).
Proof.
  unfold fetch_and_store; intros H.
  apply returns_bindM_Ok in H as (response & _ & H).
  destruct (Response.status_code response =? 404);
    [apply returns_Ret_inv in H; discriminate |].
  destruct (negb (Response.status_code response =? 200));
    [apply returns_Ret_inv in H; discriminate |].
  apply returns_bindM_Ok in H as (book_data & _ & H).
  exists book_data; assumption.
Qed.

(** A book the search stores always has a title, and its description never
    exceeds 10000 characters, whatever Open Library sent. *)
Theorem fetched_book_is_titled_and_bounded
    (isbn_request : ISBNSearch.t) (db db' : Db) (current_user : User.t)
    (net : nat -> string -> reply) (new_book : Book.t) :
  first (filter (isbn_is (strip (ISBNSearch.isbn isbn_request))) (database.books db))
  = None ->
  fst (run net (search_book_by_isbn repr isbn_request db current_user))
  = (Ok new_book, db') ->
  Book.title new_book <> ""%string
  /\ exists text, Book.description new_book = Some text
                  /\ Z.of_nat (String.length text) <= 10000.
Proof.
  intros Hmiss Hrun.
  pose proof (search_outcome isbn_request db db' current_user net new_book Hmiss Hrun)
    as H.
  apply fetch_and_store_Ok in H as [book_data H].
  eapply normalize_and_store_fields; eassumption.
Qed.

(** The book a search has just stored is the one [GET /books/{id}] returns
    for its id, provided the sequence is ahead of the ids in use. *)
Theorem fetched_book_can_be_read_back
    (isbn_request : ISBNSearch.t) (db db' : Db) (current_user : User.t)
    (net : nat -> string -> reply) (new_book : Book.t) :
  (forall b, In b (database.books db) -> Book.id b <= books_id_seq db) ->
  first (filter (isbn_is (strip (ISBNSearch.isbn isbn_request))) (database.books db))
  = None ->
  fst (run net (search_book_by_isbn repr isbn_request db current_user))
  = (Ok new_book, db') ->
  books_read.get_book (Book.id new_book) db' = (Ok new_book, db').
Proof.
  intros Hseq Hmiss Hrun.
  pose proof (search_outcome isbn_request db db' current_user net new_book Hmiss Hrun)
    as H.
  apply fetch_and_store_Ok in H as [book_data H].
  apply normalize_and_store_Ok in H as (_ & Hid & Hdb).
  unfold books_read.get_book.
  assert (Hold : filter (fun b => Book.id b =? Book.id new_book) (database.books db) = []).
  { assert (Hnone : first (filter (fun b => Book.id b =? Book.id new_book)
                                  (database.books db)) = None).
    { apply first_filter_None; intros b Hb; apply Z.eqb_neq.
      specialize (Hseq b Hb); lia. }
    unfold first in Hnone.
    destruct (filter (fun b => Book.id b =? Book.id new_book) (database.books db));
      [reflexivity | discriminate]. }
  rewrite Hdb at 1; cbn [database.books].
  rewrite filter_app, Hold; simpl.
  rewrite Z.eqb_refl; reflexivity.
Qed.

End Search.

End search_facts.

Module sample_more.
Import python httpx.

(** Open Library does not know the ISBN. *)
Definition net_unknown_isbn (n : nat) (url : string) : reply :=
  Responded (Response.mk 404 None).

(** What the search stores when the author lookup times out. *)
Definition matilda_unknown_author : Book.t :=
  Book.mk 1 "Matilda" "Unknown author" (Some "9780140328721") (Some "") None.

Definition db_after_search : Db :=
  mkDb [sample.alice; sample.root] [matilda_unknown_author] [] 2 1 0.

End sample_more.

Module search_witnesses.
Import python httpx books search_facts.

Lemma primary_lookup_failure_ends_the_request_witness :
  exists e,
    run sample_more.net_unknown_isbn
        (search_book_by_isbn sample.repr0 sample.isbn_request
           sample.db_empty_catalog sample.alice)
    = ((Raise (Http e), sample.db_empty_catalog),
       [(isbn_url (strip (ISBNSearch.isbn sample.isbn_request)), 10)])
    /\ status_code e
       = primary_failure_status
           (sample_more.net_unknown_isbn 0%nat
              (isbn_url (strip (ISBNSearch.isbn sample.isbn_request)))).
Proof.
  apply (primary_lookup_failure_ends_the_request sample.repr0 sample.isbn_request
           sample.db_empty_catalog sample.alice sample_more.net_unknown_isbn).
  - reflexivity.
  - simpl; lia.
Defined.

Lemma fetched_book_is_titled_and_bounded_witness :
  Book.title sample_more.matilda_unknown_author <> ""%string
  /\ exists text,
       Book.description sample_more.matilda_unknown_author = Some text
       /\ Z.of_nat (String.length text) <= 10000.
Proof.
  apply (fetched_book_is_titled_and_bounded sample.repr0 sample.isbn_request
           sample.db_empty_catalog sample_more.db_after_search sample.alice
           (sample.net_author_timeout (PList []))
           sample_more.matilda_unknown_author).
  - reflexivity.
  - reflexivity.
Defined.

Lemma fetched_book_can_be_read_back_witness :
  books_read.get_book (Book.id sample_more.matilda_unknown_author)
    sample_more.db_after_search
  = (Ok sample_more.matilda_unknown_author, sample_more.db_after_search).
Proof.
  apply (fetched_book_can_be_read_back sample.repr0 sample.isbn_request
           sample.db_empty_catalog sample_more.db_after_search sample.alice
           (sample.net_author_timeout (PList []))
           sample_more.matilda_unknown_author).
  - intros b [].
  - reflexivity.
  - reflexivity.
Defined.

Lemma search_again_hits_the_catalogue_witness :
  run sample_more.net_unknown_isbn
      (search_book_by_isbn sample.repr0 sample.isbn_request
         sample_more.db_after_search sample.root)
  = ((Ok sample_more.matilda_unknown_author, sample_more.db_after_search), []).
Proof.
  apply (books_facts.search_again_hits_the_catalogue sample.repr0
           sample.isbn_request sample.db_empty_catalog sample_more.db_after_search
           sample.alice sample.root (sample.net_author_timeout (PList []))
           sample_more.matilda_unknown_author).
  - reflexivity.
  - reflexivity.
Defined.

End search_witnesses.

(* ===================================================================== *)
(** ** The catalogue: listing, reading back, deleting                     *)
(* ===================================================================== *)

Module catalogue_facts.
Import books_read dependencies_facts users_facts.

Lemma firstn_pages {A : Type} (a b : nat) (l : list A) :
  firstn a l ++ firstn b (skipn a l) = firstn (a + b) l.
Proof.
  revert l; induction a as [| a IH]; intros l; [reflexivity |].
  destruct l as [| x l]; simpl.
  - destruct b; reflexivity.
  - rewrite IH; reflexivity.
Qed.

Lemma incl_firstn_skipn {A : Type} (a s : nat) (l : list A) :
  incl (firstn a (skipn s l)) l.
Proof.
  intros x Hx.
  assert (Hs : In x (skipn s l)).
  { rewrite <- (firstn_skipn a (skipn s l)); apply in_or_app; left; exact Hx. }
  rewrite <- (firstn_skipn s l); apply in_or_app; right; exact Hs.
Qed.

(** Paging through the catalogue: a page holds at most [limit] books, all
    of them stored, and two consecutive pages are exactly the page of their
    joint size; reading changes nothing. *)
Theorem get_all_books_pages (skip a b : Z) (db : Db) :
  0 <= skip -> 0 <= a -> 0 <= b -> skip + a + b < 2 ^ 63 ->
  exists page1 page2,
    get_all_books skip a db = (Ok page1, db)
    /\ get_all_books (skip + a) b db = (Ok page2, db)
    /\ get_all_books skip (a + b) db = (Ok (page1 ++ page2), db)
    /\ Z.of_nat (List.length page1) <= a
    /\ incl page1 (books db).
Proof.
  intros Hs Ha Hb Hmax; unfold get_all_books, offset_or_limit.
  assert (Hin : forall n, 0 <= n -> n <= skip + a + b ->
                          (0 <=? n) && (n <? 2 ^ 63) = true).
  { intros n H0 Hn; apply andb_true_intro; split;
      [apply Z.leb_le | apply Z.ltb_lt]; lia. }
  rewrite !Hin by lia; simpl.
  do 2 eexists; repeat split.
  - rewrite !Z2Nat.inj_add by lia.
    rewrite <- firstn_pages, skipn_skipn.
    rewrite (Nat.add_comm (Z.to_nat a) (Z.to_nat skip)); reflexivity.
  - pose proof (firstn_le_length (Z.to_nat a)
                  (skipn (Z.to_nat skip) (books db))); lia.
  - apply incl_firstn_skipn.
Qed.

Lemma get_all_books_pages_witness :
  exists page1 page2,
    get_all_books 0 1 sample.db0 = (Ok page1, sample.db0)
    /\ get_all_books (0 + 1) 5 sample.db0 = (Ok page2, sample.db0)
    /\ get_all_books 0 (1 + 5) sample.db0 = (Ok (page1 ++ page2), sample.db0)
    /\ Z.of_nat (List.length page1) <= 1
    /\ incl page1 (books sample.db0).
Proof.
  apply (get_all_books_pages 0 1 5 sample.db0); lia.
Defined.

Lemma first_filter_replace {A : Type} (p : A -> bool) (new old : A) (rows : list A) :
  p new = true ->
  first (filter p rows) = Some old ->
  first (filter p (map (fun r => if p r then new else r) rows)) = Some new.
Proof.
  intros Hnew; induction rows as [| r rows IH]; simpl; [discriminate |].
  destruct (p r) eqn:Hr; simpl.
  - rewrite Hnew; reflexivity.
  - rewrite Hr; exact IH.
Qed.

(** A successful [PUT /books/{id}] stores exactly the submitted fields under
    the same id, which is what [GET /books/{id}] returns afterwards; the
    other books, the users and the shelves are as before. *)
Theorem updated_book_can_be_read_back (book_id : Z) (book_update : BookCreate.t)
    (db db' : Db) (current_user : User.t) (b : Book.t) :
  books.update_book book_id book_update db current_user = (Ok b, db') ->
  get_book book_id db' = (Ok b, db')
  /\ b = Book.mk book_id (BookCreate.title book_update) (BookCreate.author book_update)
           (BookCreate.isbn book_update) (BookCreate.description book_update)
           (BookCreate.cover_url book_update)
  /\ users db' = users db
  /\ shelf_items db' = shelf_items db
  /\ (forall other, In other (books db) -> Book.id other <> book_id ->
                    In other (books db')).
Proof.
  unfold books.update_book.
  destruct (first (filter (fun b => Book.id b =? book_id) (books db)))
    as [db_book |] eqn:Hfind; [| discriminate].
  pose proof (first_filter_Some _ _ _ Hfind) as [_ Hid]; apply Z.eqb_eq in Hid.
  unfold database.update_book.
  match goal with |- context [if ?c then _ else _] => destruct c end;
    [discriminate |].
  rewrite Hid; intros H; inversion H; subst b db'; clear H.
  repeat split.
  - unfold get_book; cbn [books with_books].
    erewrite (first_filter_replace (fun b => Book.id b =? book_id));
      [reflexivity | apply Z.eqb_refl | exact Hfind].
  - intros other Hin Hother; cbn [books with_books].
    apply in_map_iff; exists other; split; [| assumption].
    apply Z.eqb_neq in Hother; rewrite Hother; reflexivity.
Qed.

Lemma updated_book_can_be_read_back_witness :
  let b := Book.mk 1 "Matilda" "Roald Dahl" None (Some "A girl who reads.") None in
  let db' := mkDb [sample.alice; sample.root] [b] [sample.alice_item] 2 1 1 in
  get_book 1 db' = (Ok b, db')
  /\ b = Book.mk 1 "Matilda" "Roald Dahl" None (Some "A girl who reads.") None
  /\ users db' = users sample.db0
  /\ shelf_items db' = shelf_items sample.db0
  /\ (forall other, In other (books sample.db0) -> Book.id other <> 1 ->
                    In other (books db')).
Proof.
  apply (updated_book_can_be_read_back 1
           (BookCreate.mk "Matilda" "Roald Dahl" None (Some "A girl who reads.") None)
           sample.db0
           (mkDb [sample.alice; sample.root]
                 [Book.mk 1 "Matilda" "Roald Dahl" None (Some "A girl who reads.") None]
                 [sample.alice_item] 2 1 1)
           sample.root).
  reflexivity.
Defined.

(** A successful [DELETE /books/{id}] was asked by an administrator and
    removes the books with that id and nothing else: reading the id afterwards
    gives 404, every other book is still there, users and shelves are
    untouched. *)
Theorem deleted_book_is_gone (book_id : Z) (db db' : Db) (current_user : User.t) :
  books.delete_book book_id db current_user = (Ok tt, db') ->
  User.role current_user = ADMIN
  /\ get_book book_id db' = (abort 404 "Book not found", db')
  /\ (forall b, In b (books db') <-> In b (books db) /\ Book.id b <> book_id)
  /\ users db' = users db
  /\ shelf_items db' = shelf_items db.
Proof.
  unfold books.delete_book.
  destruct (User.role current_user) eqn:Hrole; simpl; [discriminate |].
  destruct (first (filter (fun b => Book.id b =? book_id) (books db)))
    as [db_book |] eqn:Hfind; [| discriminate].
  pose proof (first_filter_Some _ _ _ Hfind) as [_ Hid]; apply Z.eqb_eq in Hid.
  unfold database.delete_book.
  destruct (existsb _ (shelf_items db)); [discriminate |].
  rewrite Hid; intros H; inversion H; subst db'; clear H.
  assert (Hmem : forall b, In b (filter (fun b => negb (Book.id b =? book_id)) (books db))
                           <-> In b (books db) /\ Book.id b <> book_id).
  { intros b; rewrite filter_In, negb_true_iff, Z.eqb_neq; reflexivity. }
  split; [reflexivity |].
  split; [| split; [intros b; apply Hmem | split; reflexivity]].
  unfold get_book; cbn [books with_books].
  assert (Hnone : first (filter (fun b => Book.id b =? book_id)
                    (filter (fun b => negb (Book.id b =? book_id)) (books db)))
                  = None).
  { apply first_filter_None; intros b Hb.
    apply Hmem in Hb as [_ Hb]; apply Z.eqb_neq; assumption. }
  rewrite Hnone; reflexivity.
Qed.

Lemma deleted_book_is_gone_witness :
  let db' := mkDb [sample.alice; sample.root] [] [] 2 1 0 in
  User.role sample.root = ADMIN
  /\ get_book 1 db' = (abort 404 "Book not found", db')
  /\ (forall b, In b (books db')
                <-> In b (books sample_more.db_after_search) /\ Book.id b <> 1)
  /\ users db' = users sample_more.db_after_search
  /\ shelf_items db' = shelf_items sample_more.db_after_search.
Proof.
  apply (deleted_book_is_gone 1 sample_more.db_after_search
           (mkDb [sample.alice; sample.root] [] [] 2 1 0) sample.root).
  reflexivity.
Defined.

End catalogue_facts.

(* ===================================================================== *)
(** ** Users: deletion and the uniqueness of identities                   *)
(* ===================================================================== *)

Module identity_invariants.
Import python dependencies dependencies_facts users users_facts.

Lemma delete_user_leaves_the_others (user_id : Z) (db db' : Db)
    (current_user : User.t) :
  delete_user user_id db current_user = (Ok tt, db') ->
  forall u, In u (database.users db') -> User.id u <> user_id.
Proof.
  unfold delete_user.
  destruct (negb (UserRole_eqb (User.role current_user) ADMIN)); [discriminate |].
  destruct (User.id current_user =? user_id); [discriminate |].
  destruct (in_int32 user_id); cbn [negb]; [| discriminate].
  destruct (first (filter (fun u => User.id u =? user_id) (database.users db)));
    [| discriminate].
  intros H; inversion H; subst db'; clear H.
  intros u Hu; cbn in Hu.
  apply filter_In in Hu as [_ Hu].
  apply negb_true_iff, Z.eqb_neq in Hu; assumption.
Qed.

(** The id of a deleted user is one the column holds: the [select] that
    found the user was given it. *)
Lemma deleted_id_in_range (user_id : Z) (db db' : Db) (current_user : User.t) :
  delete_user user_id db current_user = (Ok tt, db') -> in_int32 user_id = true.
Proof.
  unfold delete_user.
  destruct (negb (UserRole_eqb (User.role current_user) ADMIN)); [discriminate |].
  destruct (User.id current_user =? user_id); [discriminate |].
  destruct (in_int32 user_id); [reflexivity | discriminate].
Qed.

(** A successful [DELETE /users/{id}] removes the user together with the
    user's shelf items and nothing else: every other user and every other
    user's shelf item is still stored, the catalogue is untouched, and the id
    now reads as 404. *)
Theorem deleted_user_takes_the_shelf_along (user_id : Z) (db db' : Db)
    (current_user : User.t) :
  delete_user user_id db current_user = (Ok tt, db') ->
  (forall u, In u (database.users db')
             <-> In u (database.users db) /\ User.id u <> user_id)
  /\ (forall i, In i (shelf_items db')
                <-> In i (shelf_items db) /\ ShelfItem.user_id i <> user_id)
  /\ books db' = books db
  /\ get_user user_id db' current_user = (abort 404 "User not found", db').
Proof.
  intros H.
  destruct (delete_user_only_admin user_id db db' current_user H) as [Hadmin Hother].
  revert H; unfold delete_user.
  rewrite (is_ADMIN _ Hadmin); apply Z.eqb_neq in Hother; rewrite Hother.
  cbn [UserRole_eqb negb].
  destruct (in_int32 user_id); cbn [negb]; [| discriminate].
  destruct (first (filter (fun u => User.id u =? user_id) (database.users db)));
    [| discriminate].
  intros H; inversion H; subst db'; clear H.
  assert (Hu : forall u,
    In u (filter (fun u => negb (User.id u =? user_id)) (database.users db))
    <-> In u (database.users db) /\ User.id u <> user_id).
  { intros u; rewrite filter_In, negb_true_iff, Z.eqb_neq; reflexivity. }
  split; [exact Hu |].
  split; [intros i; cbn; rewrite filter_In, negb_true_iff, Z.eqb_neq; reflexivity |].
  split; [reflexivity |].
  unfold get_user; rewrite (is_ADMIN _ Hadmin); simpl.
  assert (Hnone :
    first (filter (fun u => User.id u =? user_id)
             (filter (fun u => negb (User.id u =? user_id)) (database.users db)))
    = None).
  { apply first_filter_None; intros u Hin.
    apply Hu in Hin as [_ Hin]; apply Z.eqb_neq; assumption. }
  rewrite Hnone; reflexivity.
Qed.

Lemma deleted_user_takes_the_shelf_along_witness :
  let db' := mkDb [sample.root] [sample.matilda] [] 2 1 1 in
  (forall u, In u (database.users db')
             <-> In u (database.users sample.db0) /\ User.id u <> 1)
  /\ (forall i, In i (shelf_items db')
                <-> In i (shelf_items sample.db0) /\ ShelfItem.user_id i <> 1)
  /\ books db' = books sample.db0
  /\ get_user 1 db' sample.root = (abort 404 "User not found", db').
Proof.
  apply (deleted_user_takes_the_shelf_along 1 sample.db0
           (mkDb [sample.root] [sample.matilda] [] 2 1 1) sample.root).
  reflexivity.
Defined.

(** Once a user is deleted, a token issued to that user is refused: the
    subject no longer resolves. *)
Theorem deleted_user_token_is_refused (sec : security.t) (user_id : Z)
    (db db' : Db) (current_user : User.t) (token : string)
    (payload : list (string * value)) (sub : value) :
  delete_user user_id db current_user = (Ok tt, db') ->
  security.decode sec token = inr payload ->
  assoc "sub" payload = Some sub ->
  int sub = Val user_id ->
  get_current_user sec token db' = Raise (Http credentials_exception).
Proof.
  intros Hdel Hdec Hsub Hint.
  apply get_current_user_refused.
  apply (unknown_user sec db' token payload sub user_id Hdec Hsub Hint).
  - exact (deleted_id_in_range user_id db db' current_user Hdel).
  - exact (delete_user_leaves_the_others user_id db db' current_user Hdel).
Qed.

Lemma deleted_user_token_is_refused_witness :
  get_current_user sample.sec0 "alice-token"
    (mkDb [sample.root] [sample.matilda] [] 2 1 1)
  = Raise (Http credentials_exception).
Proof.
  apply (deleted_user_token_is_refused sample.sec0 1 sample.db0
           (mkDb [sample.root] [sample.matilda] [] 2 1 1) sample.root
           "alice-token" (sample.claims_of (PStr "1")) (PStr "1")).
  - reflexivity.
  - reflexivity.
  - reflexivity.
  - reflexivity.
Defined.

Lemma map_replace_absent (user_id : Z) (new : User.t) (l : list User.t) :
  (forall u, In u l -> User.id u <> user_id) ->
  map (fun u => if User.id u =? user_id then new else u) l = l.
Proof.
  induction l as [| u l IH]; intros H; [reflexivity |]; simpl.
  assert (Hu : (User.id u =? user_id) = false)
    by (apply Z.eqb_neq; apply H; left; reflexivity).
  rewrite Hu, IH; [reflexivity |].
  intros x Hx; apply H; right; assumption.
Qed.

Lemma NoDup_map_replace {B : Type} (f : User.t -> B) (user_id : Z) (new : User.t)
    (l : list User.t) :
  NoDup (map User.id l) ->
  NoDup (map f l) ->
  (forall u, In u l -> User.id u <> user_id -> f u <> f new) ->
  NoDup (map f (map (fun u => if User.id u =? user_id then new else u) l)).
Proof.
  induction l as [| u l IH]; intros Hid Hf Hnew; [constructor |].
  simpl in Hid, Hf; inversion Hid as [| ? ? Hid_u Hid_l]; subst.
  inversion Hf as [| ? ? Hf_u Hf_l]; subst.
  simpl; destruct (User.id u =? user_id) eqn:Hu.
  - apply Z.eqb_eq in Hu.
    rewrite map_replace_absent.
    + constructor; [| assumption].
      intros Hin; apply in_map_iff in Hin as (x & Hx & Hin).
      apply (Hnew x); [right; assumption | | assumption].
      intros Hxid; apply Hid_u; apply in_map_iff; exists x; split;
        [congruence | assumption].
    + intros x Hx Hxid; apply Hid_u; apply in_map_iff; exists x; split;
        [congruence | assumption].
  - apply Z.eqb_neq in Hu.
    constructor.
    + intros Hin; apply in_map_iff in Hin as (y & Hy & Hin).
      apply in_map_iff in Hin as (x & Hx & Hin).
      destruct (User.id x =? user_id); subst y.
      * apply (Hnew u); [left; reflexivity | assumption | congruence].
      * apply Hf_u; apply in_map_iff; exists x; split; assumption.
    + apply IH; [assumption | assumption |].
      intros x Hx; apply Hnew; right; assumption.
Qed.

Lemma NoDup_map_eq {A B : Type} (f : A -> B) (l : list A) (a b : A) :
  NoDup (map f l) -> In a l -> In b l -> f a = f b -> a = b.
Proof.
  induction l as [| x l IH]; intros Hnd Ha Hb Hab; [destruct Ha |].
  simpl in Hnd; inversion Hnd as [| ? ? Hx Hl]; subst.
  destruct Ha as [<- | Ha], Hb as [<- | Hb]; auto.
  - exfalso; apply Hx; rewrite Hab; apply in_map; assumption.
  - exfalso; apply Hx; rewrite <- Hab; apply in_map; assumption.
Qed.

Lemma not_taken_by_others (p : User.t -> string) (v : string) (user_id : Z)
    (l : list User.t) :
  existsb (fun u => String.eqb (p u) v && negb (User.id u =? user_id)) l = false ->
  forall u, In u l -> User.id u <> user_id -> p u <> v.
Proof.
  intros H u Hin Hid Hv.
  apply not_true_iff_false in H; apply H.
  apply existsb_exists; exists u; split; [assumption |].
  rewrite Hv, String.eqb_refl; apply Z.eqb_neq in Hid; rewrite Hid; reflexivity.
Qed.

Lemma apply_role_keeps (user_update : UserUpdate.t) (current_user db_user : User.t) :
  User.id (apply_role user_update current_user db_user) = User.id db_user
  /\ User.username (apply_role user_update current_user db_user)
     = User.username db_user
  /\ User.email (apply_role user_update current_user db_user) = User.email db_user.
Proof.
  unfold apply_role.
  destruct (UserUpdate.role user_update) as [r |]; [| auto].
  destruct (UserRole_eqb (User.role current_user) ADMIN); auto.
Qed.

(** What a committed update leaves in the table, and what is known of the
    row it wrote. *)
Lemma update_user_committed (user_id : Z) (user_update : UserUpdate.t) (db db' : Db)
    (current_user updated : User.t) :
  update_user user_id user_update db current_user = (Ok updated, db') ->
  exists db_user,
    In db_user (database.users db)
    /\ User.id db_user = user_id
    /\ User.id updated = user_id
    /\ database.users db'
       = map (fun u => if User.id u =? user_id then updated else u) (database.users db)
    /\ (User.username updated = User.username db_user
        \/ forall u, In u (database.users db) -> User.id u <> user_id ->
                     User.username u <> User.username updated)
    /\ (User.email updated = User.email db_user
        \/ forall u, In u (database.users db) -> User.id u <> user_id ->
                     User.email u <> User.email updated).
Proof.
  unfold update_user.
  destruct (negb (UserRole_eqb (User.role current_user) ADMIN)
            && negb (User.id current_user =? user_id)); [discriminate |].
  destruct (first (filter (fun u => User.id u =? user_id) (database.users db)))
    as [db_user |] eqn:Hfind; [| discriminate].
  destruct (apply_username user_id user_update db db_user) as [with_name | e] eqn:Hn;
    [| discriminate].
  destruct (apply_email user_id user_update db with_name) as [with_mail | e] eqn:Hm;
    [| discriminate].
  destruct (database.update_user db db_user
              (apply_role user_update current_user with_mail)) as [db'' | e] eqn:Hupd;
    [| discriminate].
  intros H.
  assert (Hu : updated = apply_role user_update current_user with_mail) by congruence.
  assert (Hdb : db' = db'') by congruence.
  clear H; subst db''.
  destruct (apply_role_keeps user_update current_user with_mail) as (Hr_id & Hr_name & Hr_mail).
  rewrite <- Hu in Hr_id, Hr_name, Hr_mail, Hupd.
  apply apply_username_Ok in Hn as (Hn_id & _ & Hn_mail & _ & Hn_name & Hn_free).
  apply apply_email_Ok in Hm as (Hm_id & _ & Hm_name & _ & Hm_mail & Hm_free).
  apply database_update_user_Val in Hupd.
  pose proof (first_filter_Some _ _ _ Hfind) as [Hin Hid]; apply Z.eqb_eq in Hid.
  exists db_user; repeat split; try congruence.
  - rewrite Hupd, Hid; reflexivity.
  - destruct (UserUpdate.username user_update) as [name |].
    + right; intros u Hu_in Hu_id.
      replace (User.username updated) with name by congruence.
      eapply (not_taken_by_others User.username); eassumption.
    + left; congruence.
  - destruct (UserUpdate.email user_update) as [mail |].
    + right; intros u Hu_in Hu_id.
      replace (User.email updated) with mail by congruence.
      eapply (not_taken_by_others User.email); eassumption.
    + left; congruence.
Qed.

Lemma update_user_Raise_keeps_store (user_id : Z) (user_update : UserUpdate.t)
    (db : Db) (current_user : User.t) (e : raised) (db' : Db) :
  update_user user_id user_update db current_user = (Raise e, db') -> db' = db.
Proof.
  unfold update_user.
  repeat match goal with
         | |- context [match ?x with _ => _ end] => destruct x
         end; intros H; inversion H; reflexivity.
Qed.

(** [PUT /users/{id}] keeps the users table well formed: if ids, usernames
    and emails are pairwise distinct before the request, they are so after
    it, whatever the request and whoever sends it. *)
Theorem update_user_keeps_identities_unique (user_id : Z)
    (user_update : UserUpdate.t) (db : Db) (current_user : User.t) :
  NoDup (map User.id (database.users db)) ->
  NoDup (map User.username (database.users db)) ->
  NoDup (map User.email (database.users db)) ->
  NoDup (map User.id
           (database.users (snd (update_user user_id user_update db current_user))))
  /\ NoDup (map User.username
              (database.users (snd (update_user user_id user_update db current_user))))
  /\ NoDup (map User.email
              (database.users (snd (update_user user_id user_update db current_user)))).
Proof.
  intros Hids Hnames Hmails.
  destruct (update_user user_id user_update db current_user) as [[updated | e] db'] eqn:H.
  2: { apply update_user_Raise_keeps_store in H; subst db'; simpl; auto. }
  apply update_user_committed in H
    as (db_user & Hin & Hid & Hnew_id & Hdb & Hname & Hmail).
  simpl; rewrite Hdb.
  assert (Hother : forall (p : User.t -> string),
    NoDup (map p (database.users db)) ->
    p updated = p db_user ->
    forall u, In u (database.users db) -> User.id u <> user_id -> p u <> p updated).
  { intros p Hp Hsame u Hu Hu_id Heq.
    apply Hu_id; rewrite <- Hid.
    f_equal; apply (NoDup_map_eq p (database.users db)); congruence. }
  repeat split; apply NoDup_map_replace; try assumption.
  - intros u _ Hu; congruence.
  - destruct Hname as [Hsame | Hfree]; [apply Hother; assumption | exact Hfree].
  - destruct Hmail as [Hsame | Hfree]; [apply Hother; assumption | exact Hfree].
Qed.

Lemma update_user_keeps_identities_unique_witness :
  let user_update := UserUpdate.mk (Some "alicia") (Some "alicia@example.org") None in
  NoDup (map User.id
           (database.users (snd (update_user 1 user_update sample.db0 sample.alice))))
  /\ NoDup (map User.username
              (database.users (snd (update_user 1 user_update sample.db0 sample.alice))))
  /\ NoDup (map User.email
              (database.users (snd (update_user 1 user_update sample.db0 sample.alice)))).
Proof.
  apply (update_user_keeps_identities_unique 1
           (UserUpdate.mk (Some "alicia") (Some "alicia@example.org") None)
           sample.db0 sample.alice).
  - repeat constructor; simpl; intuition discriminate.
  - repeat constructor; simpl; intuition discriminate.
  - repeat constructor; simpl; intuition discriminate.
Defined.

(** A username or an email that another user holds makes the update fail
    with 400 and leaves the store as it was. *)
Theorem update_user_conflict_is_400 (user_id : Z) (user_update : UserUpdate.t)
    (db : Db) (current_user db_user : User.t) :
  User.role current_user = ADMIN \/ User.id current_user = user_id ->
  first (filter (fun u => User.id u =? user_id) (database.users db)) = Some db_user ->
  (exists name, UserUpdate.username user_update = Some name
                /\ username_taken db name (fun i => i =? user_id) = true)
  \/ (exists mail, UserUpdate.email user_update = Some mail
                   /\ email_taken db mail (fun i => i =? user_id) = true) ->
  exists msg,
    update_user user_id user_update db current_user = (abort 400 msg, db).
Proof.
  intros Hauth Hfind Hconflict; unfold update_user.
  assert (Hgate : negb (UserRole_eqb (User.role current_user) ADMIN)
                  && negb (User.id current_user =? user_id) = false).
  { destruct Hauth as [-> | <-]; [reflexivity |].
    rewrite Z.eqb_refl, andb_false_r; reflexivity. }
  rewrite Hgate, Hfind; unfold apply_username, apply_email.
  destruct Hconflict as [(name & Hname & Htaken) | (mail & Hmail & Htaken)].
  - rewrite Hname, Htaken; eexists; reflexivity.
  - rewrite Hmail, Htaken.
    destruct (UserUpdate.username user_update) as [name |];
      [destruct (username_taken db name (fun i => i =? user_id)) |];
      eexists; reflexivity.
Qed.

Lemma update_user_conflict_is_400_witness :
  exists msg,
    update_user 1 (UserUpdate.mk None (Some "root@example.org") None)
      sample.db0 sample.alice
    = (abort 400 msg, sample.db0).
Proof.
  apply (update_user_conflict_is_400 1
           (UserUpdate.mk None (Some "root@example.org") None)
           sample.db0 sample.alice sample.alice).
  - right; reflexivity.
  - reflexivity.
  - right; exists "root@example.org"%string; split; reflexivity.
Defined.

End identity_invariants.

(* ===================================================================== *)
(** ** Sessions: register, log in, be recognised                          *)
(* ===================================================================== *)

Module session_facts.
Import python dependencies dependencies_facts auth_token.

Lemma filter_nil_of_first {A : Type} (p : A -> bool) (rows : list A) :
  first (filter p rows) = None -> filter p rows = [].
Proof.
  unfold first; destruct (filter p rows); [reflexivity | discriminate].
Qed.

(** The user a token resolves to is a stored user, and the token's subject
    reads as that user's id. *)
Theorem current_user_is_the_subject (sec : security.t) (db : Db) (token : string)
    (u : User.t) :
  get_current_user sec token db = Ok u ->
  In u (users db)
  /\ exists payload sub,
       security.decode sec token = inr payload
       /\ assoc "sub" payload = Some sub
       /\ int sub = Val (User.id u).
Proof.
  intros H; split; [eapply get_current_user_Ok; eassumption |].
  destruct (security.decode sec token) as [err | payload] eqn:Hdec;
    [unfold get_current_user in H; rewrite Hdec in H; discriminate |].
  destruct (assoc "sub" payload) as [sub |] eqn:Hsub;
    [| unfold get_current_user in H; rewrite Hdec, Hsub in H; discriminate].
  exists payload, sub; split; [reflexivity |]; split; [assumption |].
  destruct (subject_cases sub) as [-> | [[Hn (err & Hint & _)] | [Hn (user_id & Hint)]]].
  - unfold get_current_user in H; rewrite Hdec, Hsub in H; discriminate.
  - rewrite (get_current_user_after_decode sec db token payload sub Hdec Hsub Hn), Hint in H.
    discriminate.
  - rewrite (get_current_user_after_decode sec db token payload sub Hdec Hsub Hn), Hint in H.
    destruct (in_int32 user_id); [| discriminate].
    destruct (first (filter (fun u => User.id u =? user_id) (users db))) eqn:Hf;
      [| discriminate].
    inversion H; subst.
    apply first_filter_Some in Hf as [_ Hf]; apply Z.eqb_eq in Hf.
    rewrite Hint, Hf; reflexivity.
Qed.

Lemma current_user_is_the_subject_witness :
  In sample.alice (users sample.db0)
  /\ exists payload sub,
       security.decode sample.sec0 "alice-token" = inr payload
       /\ assoc "sub" payload = Some sub
       /\ int sub = Val (User.id sample.alice).
Proof.
  apply (current_user_is_the_subject sample.sec0 sample.db0 "alice-token" sample.alice).
  reflexivity.
Defined.

(** The subject a login writes into the token, [str(user.id)], is read back
    by the verification's [int(...)] as the same id, for every id that is
    written with no more digits than [int()] reads. *)
Theorem token_subject_reads_back (user : User.t) :
  count_digits (python_str.str_of_int (User.id user)) <= max_str_digits ->
  exists sub,
    assoc "sub" (token_data user) = Some sub
    /\ sub <> PNone
    /\ int sub = Val (User.id user).
Proof.
  intros Hlen.
  exists (PStr (python_str.str_of_int (User.id user))).
  split; [reflexivity |]; split; [discriminate |].
  apply python_str_facts.int_of_str_of_int, Hlen.
Qed.

Lemma token_subject_reads_back_witness :
  exists sub,
    assoc "sub" (token_data (User.mk (-2147483648) "first" "first@example.org" "h" USER))
    = Some sub
    /\ sub <> PNone
    /\ int sub = Val (-2147483648).
Proof.
  apply (token_subject_reads_back
           (User.mk (-2147483648) "first" "first@example.org" "h" USER)).
  vm_compute; discriminate.
Defined.

Section WithIssuer.
Variable sec : security.t.
Variable iss : Issuer.t.

(** A login that fails tells nothing but that it failed: an unknown username
    and a wrong password raise the same exception (401 with one fixed
    detail), and a login never changes the store. *)
Theorem login_fails_uniformly (form_data : OAuth2PasswordRequestForm.t) (db : Db) :
  snd (login_for_access_token iss form_data db) = db
  /\ (forall e, fst (login_for_access_token iss form_data db) = Raise e ->
                e = Http incorrect_credentials)
  /\ (fst (login_for_access_token iss form_data db) = Raise (Http incorrect_credentials)
      <-> forall user,
            first (filter (fun u => String.eqb (User.username u)
                                      (OAuth2PasswordRequestForm.username form_data))
                          (users db)) = Some user ->
            Issuer.verify_password iss
              (OAuth2PasswordRequestForm.password form_data)
              (User.hashed_password user) = false).
Proof.
  unfold login_for_access_token.
  destruct (first (filter _ (users db))) as [user |].
  - destruct (Issuer.verify_password iss
                (OAuth2PasswordRequestForm.password form_data)
                (User.hashed_password user)) eqn:Hv; simpl.
    + split; [reflexivity |]; split; [discriminate |].
      split; [discriminate |].
      intros H; specialize (H user eq_refl); congruence.
    + split; [reflexivity |]; split; [intros e H; inversion H; reflexivity |].
      split; [intros _ u Hu; inversion Hu; subst; assumption | reflexivity].
  - simpl; split; [reflexivity |]; split; [intros e H; inversion H; reflexivity |].
    split; [intros _ u Hu; discriminate | reflexivity].
Qed.

(** Register, then log in with the same username and password: the login
    succeeds, and the token it issues resolves back to the registered user.
    The hypotheses on the parameters say that the hash verifies the password
    it was made from and that the token decodes to the subject it was issued
    for; the sequence is ahead of the ids in use. *)
Theorem registered_user_can_log_in (user : UserCreate.t) (db db1 : Db)
    (new_user : User.t) (payload : list (string * value)) :
  (forall u, In u (users db) -> User.id u <= users_id_seq db) ->
  auth.register sec user db = (Ok new_user, db1) ->
  Issuer.verify_password iss (UserCreate.password user)
    (security.get_password_hash sec (UserCreate.password user)) = true ->
  security.decode sec
    (Issuer.create_access_token iss (token_data new_user)
       (Issuer.ACCESS_TOKEN_EXPIRE_MINUTES iss)) = inr payload ->
  assoc "sub" payload = assoc "sub" (token_data new_user) ->
  exists token,
    login_for_access_token iss
      (OAuth2PasswordRequestForm.mk (UserCreate.username user) (UserCreate.password user))
      db1
    = (Ok (Token.mk token "bearer"), db1)
    /\ get_current_user sec token db1 = Ok new_user.
Proof.
  intros Hseq Hreg Hverify Hdecode Hsub.
  unfold auth.register in Hreg.
  destruct (first (filter (fun u => String.eqb (User.username u) (UserCreate.username user))
                          (users db))) eqn:Hname; [discriminate |].
  unfold insert_user in Hreg.
  destruct (in_int32 (users_id_seq db + 1)) eqn:Hrange; cbn [negb] in Hreg;
    [| discriminate].
  destruct (username_taken db (UserCreate.username user) (fun _ => false)
            || email_taken db (UserCreate.email user) (fun _ => false));
    [discriminate |].
  inversion Hreg; subst new_user db1; clear Hreg.
  set (new_user := User.mk (users_id_seq db + 1) (UserCreate.username user)
                     (UserCreate.email user)
                     (security.get_password_hash sec (UserCreate.password user)) USER)
    in *.
  eexists; split.
  - unfold login_for_access_token; cbn [users OAuth2PasswordRequestForm.username
                                             OAuth2PasswordRequestForm.password].
    rewrite filter_app, (filter_nil_of_first _ _ Hname).
    cbn [filter app new_user User.username]; rewrite String.eqb_refl.
    cbn [first hd_error].
    change (User.hashed_password new_user)
      with (security.get_password_hash sec (UserCreate.password user)).
    rewrite Hverify; reflexivity.
  - rewrite (get_current_user_after_decode sec _ _ payload
               (PStr (python_str.str_of_int (User.id new_user))) Hdecode).
    + rewrite python_str_facts.int_of_str_of_int
        by (apply python_str_facts.count_digits_in_int32; exact Hrange).
      change (in_int32 (User.id new_user)) with (in_int32 (users_id_seq db + 1)).
      rewrite Hrange; cbn [users].
      assert (Hold : filter (fun u => User.id u =? User.id new_user) (users db) = []).
      { apply filter_nil_of_first, first_filter_None.
        intros u Hu; apply Z.eqb_neq; specialize (Hseq u Hu).
        cbn [new_user User.id]; lia. }
      rewrite filter_app, Hold; cbn [filter app]; rewrite Z.eqb_refl; reflexivity.
    + rewrite Hsub; reflexivity.
    + discriminate.
Qed.

End WithIssuer.

(** A token scheme for the examples: the token is the subject itself. *)
Definition plain_sec : security.t :=
  security.mk (fun token => inr [("sub", PStr token)])
              (fun password => ("hashed:" ++ password)%string).

Definition plain_iss : Issuer.t :=
  Issuer.mk
    (fun password hashed => String.eqb hashed ("hashed:" ++ password)%string)
    (fun data minutes =>
       match assoc "sub" data with
       | Some (PStr sub) => sub
       | _ => ""%string
       end)
    30.

Definition carol : User.t :=
  User.mk 3 "carol" "carol@example.org" "hashed:pw" USER.

Definition db_with_carol : Db :=
  mkDb [sample.alice; sample.root; carol] [sample.matilda] [sample.alice_item] 3 1 1.

Lemma registered_user_can_log_in_witness :
  exists token,
    login_for_access_token plain_iss (OAuth2PasswordRequestForm.mk "carol" "pw")
      db_with_carol
    = (Ok (Token.mk token "bearer"), db_with_carol)
    /\ get_current_user plain_sec token db_with_carol = Ok carol.
Proof.
  apply (registered_user_can_log_in plain_sec plain_iss
           (UserCreate.mk "carol" "carol@example.org" "pw")
           sample.db0 db_with_carol carol [("sub", PStr "3")]).
  - intros u [<- | [<- | []]]; simpl; lia.
  - reflexivity.
  - reflexivity.
  - reflexivity.
  - reflexivity.
Defined.

Lemma register_keeps_identities_unique_witness :
  NoDup (map User.username
           (users (snd (auth.register plain_sec
                          (UserCreate.mk "carol" "alice@example.org" "pw") sample.db0))))
  /\ NoDup (map User.email
              (users (snd (auth.register plain_sec
                             (UserCreate.mk "carol" "alice@example.org" "pw") sample.db0)))).
Proof.
  apply (identity_facts.register_keeps_identities_unique plain_sec
           (UserCreate.mk "carol" "alice@example.org" "pw") sample.db0).
  - repeat constructor; simpl; intuition discriminate.
  - repeat constructor; simpl; intuition discriminate.
Defined.

Lemma update_user_role_applied_for_admin_witness :
  User.role (User.mk 1 "alice" "alice@example.org" "h1" ADMIN) = ADMIN.
Proof.
  apply (users_facts.update_user_role_applied_for_admin 1
           (UserUpdate.mk None None (Some ADMIN)) sample.db0
           (mkDb [User.mk 1 "alice" "alice@example.org" "h1" ADMIN; sample.root]
                 [sample.matilda] [sample.alice_item] 2 1 1)
           sample.root (User.mk 1 "alice" "alice@example.org" "h1" ADMIN) ADMIN).
  - reflexivity.
  - reflexivity.
  - reflexivity.
Defined.

End session_facts.

(* ===================================================================== *)
(** ** The shelf: adding, listing, and what stays untouched               *)
(* ===================================================================== *)

Module shelf_invariants.
Import shelf shelf_add dependencies_facts session_facts.

(** The (user, book) pair of a shelf item. *)
Definition pair_of (i : ShelfItem.t) : Z * Z :=
  (ShelfItem.user_id i, ShelfItem.book_id i).

Lemma add_book_to_shelf_Ok (item : ShelfItemCreate.t) (db db1 : Db)
    (current_user : User.t) (new_item : ShelfItem.t) (book : Book.t) :
  add_book_to_shelf item db current_user = (Ok (new_item, book), db1) ->
  first (filter (fun b => Book.id b =? ShelfItemCreate.book_id item) (books db))
  = Some book
  /\ filter (fun i => (ShelfItem.user_id i =? User.id current_user)
                      && (ShelfItem.book_id i =? ShelfItemCreate.book_id item))
            (shelf_items db) = []
  /\ new_item = ShelfItem.mk (shelf_items_id_seq db + 1) (User.id current_user)
                  (ShelfItemCreate.book_id item) (ShelfItemCreate.status item)
                  (ShelfItemCreate.rating item) (ShelfItemCreate.review item)
  /\ db1 = mkDb (users db) (books db) (shelf_items db ++ [new_item])
                (users_id_seq db) (books_id_seq db) (shelf_items_id_seq db + 1).
Proof.
  unfold add_book_to_shelf.
  destruct (first (filter (fun b => Book.id b =? ShelfItemCreate.book_id item)
                          (books db))) as [found |]; [| discriminate].
  destruct (on_shelf db (User.id current_user) (ShelfItemCreate.book_id item))
    eqn:Hshelf; [discriminate |].
  unfold insert_shelf_item.
  destruct (existsb _ (users db) && existsb _ (books db)); [| discriminate].
  intros H; inversion H; subst; clear H.
  repeat split.
  apply filter_nil_of_first; exact Hshelf.
Qed.

(** After a book was added, the caller's shelf is the shelf as it was with
    the new item at its end, shown together with the book. *)
Theorem added_book_is_on_the_shelf (item : ShelfItemCreate.t) (db db1 : Db)
    (current_user : User.t) (new_item : ShelfItem.t) (book : Book.t)
    (shelf_before : list (ShelfItem.t * option Book.t)) :
  add_book_to_shelf item db current_user = (Ok (new_item, book), db1) ->
  fst (get_my_shelf db current_user) = Ok shelf_before ->
  fst (get_my_shelf db1 current_user) = Ok (shelf_before ++ [(new_item, Some book)])
  /\ ShelfItem.user_id new_item = User.id current_user
  /\ ShelfItem.book_id new_item = Book.id book.
Proof.
  intros Hadd Hbefore.
  apply add_book_to_shelf_Ok in Hadd as (Hbook & _ & Hnew & Hdb).
  pose proof (first_filter_Some _ _ _ Hbook) as [_ Hid]; apply Z.eqb_eq in Hid.
  unfold get_my_shelf in *; simpl in Hbefore; inversion Hbefore; subst shelf_before.
  rewrite Hdb; cbn [fst shelf_items].
  rewrite filter_app, map_app.
  assert (Hown : ShelfItem.user_id new_item = User.id current_user)
    by (rewrite Hnew; reflexivity).
  cbn [filter]; rewrite Hown, Z.eqb_refl; cbn [map].
  assert (Hb : book_of
                 (mkDb (users db) (books db) (shelf_items db ++ [new_item])
                       (users_id_seq db) (books_id_seq db) (shelf_items_id_seq db + 1))
                 new_item = Some book).
  { unfold book_of; cbn [books]; rewrite Hnew; cbn [ShelfItem.book_id]; exact Hbook. }
  rewrite Hb; repeat split.
  rewrite Hnew; cbn [ShelfItem.book_id]; symmetry; exact Hid.
Qed.

(** Adding a book that is already on the caller's shelf is refused with 400
    and changes nothing: after a successful add, any further add of the same
    book by the same user fails, and the shelf holds exactly one item for the
    pair. *)
Theorem second_add_is_a_conflict (item again : ShelfItemCreate.t) (db db1 : Db)
    (current_user : User.t) (new_item : ShelfItem.t) (book : Book.t) :
  add_book_to_shelf item db current_user = (Ok (new_item, book), db1) ->
  ShelfItemCreate.book_id again = ShelfItemCreate.book_id item ->
  add_book_to_shelf again db1 current_user
  = (abort 400 "Book already on your shelf", db1)
  /\ filter (fun i => (ShelfItem.user_id i =? User.id current_user)
                      && (ShelfItem.book_id i =? ShelfItemCreate.book_id item))
            (shelf_items db1) = [new_item].
Proof.
  intros Hadd Hsame.
  apply add_book_to_shelf_Ok in Hadd as (Hbook & Hnone & Hnew & Hdb).
  assert (Hone :
    filter (fun i => (ShelfItem.user_id i =? User.id current_user)
                     && (ShelfItem.book_id i =? ShelfItemCreate.book_id item))
           (shelf_items db1) = [new_item]).
  { rewrite Hdb; cbn [shelf_items]; rewrite filter_app, Hnone; cbn [filter app].
    rewrite Hnew; cbn [ShelfItem.user_id ShelfItem.book_id].
    rewrite !Z.eqb_refl; reflexivity. }
  split; [| exact Hone].
  unfold add_book_to_shelf, on_shelf; rewrite Hsame, Hone.
  replace (books db1) with (books db) by (rewrite Hdb; reflexivity).
  rewrite Hbook; reflexivity.
Qed.

Lemma pair_absent (db : Db) (user_id book_id : Z) :
  filter (fun i => (ShelfItem.user_id i =? user_id) && (ShelfItem.book_id i =? book_id))
         (shelf_items db) = [] ->
  ~ In (user_id, book_id) (map pair_of (shelf_items db)).
Proof.
  intros Hnone Hin; apply in_map_iff in Hin as (i & Hi & Hin).
  assert (Hf : In i (filter (fun i => (ShelfItem.user_id i =? user_id)
                                      && (ShelfItem.book_id i =? book_id))
                            (shelf_items db))).
  { apply filter_In; split; [assumption |].
    unfold pair_of in Hi; inversion Hi; rewrite !Z.eqb_refl; reflexivity. }
  rewrite Hnone in Hf; destruct Hf.
Qed.

Lemma distinct_after_filter {Row Key : Type} (key : Row -> Key) (keep : Row -> bool) :
  forall rows, NoDup (map key rows) -> NoDup (map key (filter keep rows)).
Proof.
  intros rows; induction rows as [| r rows IH]; intros H; [constructor |].
  simpl in H; inversion H as [| ? ? Hr Hrows]; subst; simpl.
  destruct (keep r); [| auto].
  simpl; constructor; [| auto].
  intros Hin; apply Hr.
  apply in_map_iff in Hin as (y & Hy & Hin).
  apply filter_In in Hin as [Hin _].
  apply in_map_iff; exists y; split; assumption.
Qed.

Lemma own_item_Some (item_id : Z) (db : Db) (current_user : User.t)
    (shelf_item : ShelfItem.t) :
  own_item item_id db current_user = Some shelf_item ->
  In shelf_item (shelf_items db)
  /\ ShelfItem.id shelf_item = item_id
  /\ ShelfItem.user_id shelf_item = User.id current_user.
Proof.
  unfold own_item; intros H.
  apply first_filter_Some in H as [Hin Howner]; apply Z.eqb_eq in Howner.
  apply filter_In in Hin as [Hin Hid]; apply Z.eqb_eq in Hid; auto.
Qed.

Lemma map_pair_replace (old new : ShelfItem.t) (l : list ShelfItem.t) :
  NoDup (map ShelfItem.id l) ->
  In old l ->
  pair_of new = pair_of old ->
  map pair_of (map (fun i => if ShelfItem.id i =? ShelfItem.id old then new else i) l)
  = map pair_of l.
Proof.
  intros Hids Hold Hpair; rewrite map_map; apply map_ext_in; intros i Hi.
  destruct (ShelfItem.id i =? ShelfItem.id old) eqn:Hid; [| reflexivity].
  apply Z.eqb_eq in Hid.
  rewrite (identity_invariants.NoDup_map_eq ShelfItem.id l i old Hids Hi Hold Hid);
    assumption.
Qed.

(** The shelf keeps one item per (user, book): if that holds before an add,
    an update or a removal, it holds after it, whether the request succeeds
    or not.  ([id] is the primary key of the table.) *)
Theorem shelf_keeps_one_item_per_book (db : Db) (current_user : User.t)
    (item : ShelfItemCreate.t) (item_id : Z) (update_data : ShelfItemUpdate.t) :
  NoDup (map ShelfItem.id (shelf_items db)) ->
  NoDup (map pair_of (shelf_items db)) ->
  NoDup (map pair_of (shelf_items (snd (add_book_to_shelf item db current_user))))
  /\ NoDup (map pair_of
              (shelf_items (snd (update_shelf_item item_id update_data db current_user))))
  /\ NoDup (map pair_of
              (shelf_items (snd (remove_from_shelf item_id db current_user)))).
Proof.
  intros Hids Hpairs; repeat split.
  - destruct (add_book_to_shelf item db current_user) as [[[new_item book] | e] db1] eqn:H.
    + apply add_book_to_shelf_Ok in H as (_ & Hnone & Hnew & Hdb).
      rewrite Hdb; cbn [snd shelf_items]; rewrite map_app; cbn [map].
      apply identity_facts.NoDup_snoc; [assumption |].
      rewrite Hnew; unfold pair_of at 1; cbn [ShelfItem.user_id ShelfItem.book_id].
      apply pair_absent; assumption.
    + revert H; unfold add_book_to_shelf.
      repeat match goal with
             | |- context [match ?x with _ => _ end] => destruct x
             end; intros H; inversion H; subst; assumption.
  - unfold update_shelf_item.
    destruct (own_item item_id db current_user) as [shelf_item |] eqn:Hown;
      [| assumption].
    apply own_item_Some in Hown as (Hin & _ & _).
    cbn [snd database.update_shelf_item shelf_items with_shelf_items].
    rewrite map_pair_replace; [assumption | assumption | assumption | reflexivity].
  - unfold remove_from_shelf.
    destruct (own_item item_id db current_user) as [shelf_item |]; [| assumption].
    cbn [snd database.delete_shelf_item shelf_items with_shelf_items].
    apply distinct_after_filter; assumption.
Qed.

Lemma shelf_keeps_one_item_per_book_witness :
  let db := mkDb [sample.alice; sample.root] [sample.matilda] [sample.alice_item] 2 1 1 in
  let item := ShelfItemCreate.mk READING None None 1 in
  let update_data := ShelfItemUpdate.mk None (Some 5) None in
  NoDup (map pair_of (shelf_items (snd (add_book_to_shelf item db sample.root))))
  /\ NoDup (map pair_of
              (shelf_items (snd (update_shelf_item 1 update_data db sample.root))))
  /\ NoDup (map pair_of
              (shelf_items (snd (remove_from_shelf 1 db sample.root)))).
Proof.
  apply (shelf_keeps_one_item_per_book sample.db0 sample.root
           (ShelfItemCreate.mk READING None None 1) 1
           (ShelfItemUpdate.mk None (Some 5) None)).
  - repeat constructor; simpl; intuition discriminate.
  - repeat constructor; simpl; intuition discriminate.
Defined.

(** The item root gets for Matilda, and the store that holds it. *)
Definition root_item : ShelfItem.t := ShelfItem.mk 2 2 1 READING None None.

Definition db_root_reads : Db :=
  mkDb [sample.alice; sample.root] [sample.matilda] [sample.alice_item; root_item] 2 1 2.

Lemma added_book_is_on_the_shelf_witness :
  fst (get_my_shelf db_root_reads sample.root)
  = Ok ([] ++ [(root_item, Some sample.matilda)])
  /\ ShelfItem.user_id root_item = User.id sample.root
  /\ ShelfItem.book_id root_item = Book.id sample.matilda.
Proof.
  apply (added_book_is_on_the_shelf (ShelfItemCreate.mk READING None None 1)
           sample.db0 db_root_reads sample.root root_item sample.matilda []).
  - reflexivity.
  - reflexivity.
Defined.

Lemma second_add_is_a_conflict_witness :
  add_book_to_shelf (ShelfItemCreate.mk COMPLETED (Some 4) None 1)
    db_root_reads sample.root
  = (abort 400 "Book already on your shelf", db_root_reads)
  /\ filter (fun i => (ShelfItem.user_id i =? User.id sample.root)
                      && (ShelfItem.book_id i
                          =? ShelfItemCreate.book_id
                               (ShelfItemCreate.mk READING None None 1)))
            (shelf_items db_root_reads) = [root_item].
Proof.
  apply (second_add_is_a_conflict (ShelfItemCreate.mk READING None None 1)
           (ShelfItemCreate.mk COMPLETED (Some 4) None 1)
           sample.db0 db_root_reads sample.root root_item sample.matilda).
  - reflexivity.
  - reflexivity.
Defined.

Lemma map_replace_item_absent (item_id : Z) (new : ShelfItem.t) (l : list ShelfItem.t) :
  (forall i, In i l -> ShelfItem.id i <> item_id) ->
  map (fun i => if ShelfItem.id i =? item_id then new else i) l = l.
Proof.
  induction l as [| x l IH]; intros H; [reflexivity |]; simpl.
  assert (Hx : (ShelfItem.id x =? item_id) = false)
    by (apply Z.eqb_neq; apply H; left; reflexivity).
  rewrite Hx, IH; [reflexivity |].
  intros y Hy; apply H; right; assumption.
Qed.

Lemma filter_replace_other (p : ShelfItem.t -> bool) (old new : ShelfItem.t)
    (l : list ShelfItem.t) :
  NoDup (map ShelfItem.id l) ->
  In old l ->
  p old = false ->
  p new = false ->
  filter p (map (fun i => if ShelfItem.id i =? ShelfItem.id old then new else i) l)
  = filter p l.
Proof.
  intros Hids Hold Hp_old Hp_new.
  induction l as [| x l IH]; [reflexivity |].
  simpl in Hids; inversion Hids as [| ? ? Hx Hl]; subst.
  simpl; destruct (ShelfItem.id x =? ShelfItem.id old) eqn:Hid.
  - apply Z.eqb_eq in Hid.
    assert (x = old).
    { destruct Hold as [-> | Hold]; [reflexivity |].
      exfalso; apply Hx; rewrite Hid; apply in_map; assumption. }
    subst x; rewrite Hp_old, Hp_new.
    rewrite map_replace_item_absent; [reflexivity |].
    intros y Hy Hyid; apply Hx; rewrite <- Hyid; apply in_map; assumption.
  - destruct Hold as [-> | Hold]; [rewrite Z.eqb_refl in Hid; discriminate |].
    rewrite (IH Hl Hold); reflexivity.
Qed.

Lemma filter_filter_implied {A : Type} (p q : A -> bool) (l : list A) :
  (forall x, In x l -> p x = true -> q x = true) ->
  filter p (filter q l) = filter p l.
Proof.
  induction l as [| x l IH]; intros H; [reflexivity |]; simpl.
  assert (IH' : filter p (filter q l) = filter p l)
    by (apply IH; intros y Hy; apply H; right; assumption).
  destruct (q x) eqn:Hq; simpl.
  - rewrite IH'; reflexivity.
  - destruct (p x) eqn:Hp; [| assumption].
    rewrite (H x (or_introl eq_refl) Hp) in Hq; discriminate.
Qed.

Lemma get_my_shelf_same (db db' : Db) (user : User.t) :
  books db' = books db ->
  filter (fun i => ShelfItem.user_id i =? User.id user) (shelf_items db')
  = filter (fun i => ShelfItem.user_id i =? User.id user) (shelf_items db) ->
  fst (get_my_shelf db' user) = fst (get_my_shelf db user).
Proof.
  intros Hbooks Hitems; unfold get_my_shelf, book_of; simpl.
  rewrite Hitems, Hbooks; reflexivity.
Qed.

(** Whatever a user does to the shelf (add, update, remove; successfully or
    not), every other user finds their own shelf exactly as it was.  ([id] is
    the primary key of the table.) *)
Theorem other_shelves_are_untouched (db : Db) (current_user other : User.t)
    (item : ShelfItemCreate.t) (item_id : Z) (update_data : ShelfItemUpdate.t) :
  NoDup (map ShelfItem.id (shelf_items db)) ->
  User.id other <> User.id current_user ->
  fst (get_my_shelf (snd (add_book_to_shelf item db current_user)) other)
  = fst (get_my_shelf db other)
  /\ fst (get_my_shelf (snd (update_shelf_item item_id update_data db current_user)) other)
     = fst (get_my_shelf db other)
  /\ fst (get_my_shelf (snd (remove_from_shelf item_id db current_user)) other)
     = fst (get_my_shelf db other).
Proof.
  intros Hids Hother.
  assert (Hne : forall i, ShelfItem.user_id i = User.id current_user ->
                          (ShelfItem.user_id i =? User.id other) = false).
  { intros i Hi; apply Z.eqb_neq; congruence. }
  split; [| split].
  - destruct (add_book_to_shelf item db current_user) as [[[new_item book] | e] db1] eqn:H.
    + apply add_book_to_shelf_Ok in H as (_ & _ & Hnew & Hdb).
      apply get_my_shelf_same; rewrite Hdb; cbn [snd books shelf_items];
        [reflexivity |].
      rewrite filter_app; cbn [filter].
      rewrite (Hne new_item) by (rewrite Hnew; reflexivity).
      apply app_nil_r.
    + revert H; unfold add_book_to_shelf.
      repeat match goal with
             | |- context [match ?x with _ => _ end] => destruct x
             end; intros H; inversion H; subst; reflexivity.
  - unfold update_shelf_item.
    destruct (own_item item_id db current_user) as [shelf_item |] eqn:Hown;
      [| reflexivity].
    apply own_item_Some in Hown as (Hin & _ & Howner).
    apply get_my_shelf_same; cbn [snd books shelf_items with_shelf_items
                                      database.update_shelf_item];
      [reflexivity |].
    apply filter_replace_other; auto.
  - unfold remove_from_shelf.
    destruct (own_item item_id db current_user) as [shelf_item |] eqn:Hown;
      [| reflexivity].
    apply own_item_Some in Hown as (Hin & _ & Howner).
    apply get_my_shelf_same; cbn [snd books shelf_items with_shelf_items
                                      database.delete_shelf_item];
      [reflexivity |].
    apply filter_filter_implied; intros x Hx Hp.
    apply negb_true_iff, Z.eqb_neq; intros Hid.
    assert (x = shelf_item)
      by (apply (identity_invariants.NoDup_map_eq ShelfItem.id (shelf_items db));
          assumption).
    subst x; rewrite (Hne shelf_item Howner) in Hp; discriminate.
Qed.

Lemma other_shelves_are_untouched_witness :
  let item := ShelfItemCreate.mk READING None None 1 in
  let update_data := ShelfItemUpdate.mk (Some DROPPED) None None in
  fst (get_my_shelf (snd (add_book_to_shelf item db_root_reads sample.alice)) sample.root)
  = fst (get_my_shelf db_root_reads sample.root)
  /\ fst (get_my_shelf
            (snd (update_shelf_item 1 update_data db_root_reads sample.alice)) sample.root)
     = fst (get_my_shelf db_root_reads sample.root)
  /\ fst (get_my_shelf (snd (remove_from_shelf 1 db_root_reads sample.alice)) sample.root)
     = fst (get_my_shelf db_root_reads sample.root).
Proof.
  apply (other_shelves_are_untouched db_root_reads sample.alice sample.root
           (ShelfItemCreate.mk READING None None 1) 1
           (ShelfItemUpdate.mk (Some DROPPED) None None)).
  - repeat constructor; simpl; intuition discriminate.
  - simpl; lia.
Defined.

(** After an item was removed, its id is gone for its owner: a further
    update or removal answers 404; the owner's other items are all still on
    the shelf, and users and catalogue are untouched. *)
Theorem removed_item_is_gone (item_id : Z) (update_data : ShelfItemUpdate.t)
    (db db' : Db) (current_user : User.t) :
  remove_from_shelf item_id db current_user = (Ok tt, db') ->
  update_shelf_item item_id update_data db' current_user
  = (abort 404 "Shelf item not found", db')
  /\ remove_from_shelf item_id db' current_user
     = (abort 404 "Shelf item not found", db')
  /\ (forall i, In i (shelf_items db')
                <-> In i (shelf_items db) /\ ShelfItem.id i <> item_id)
  /\ users db' = users db
  /\ books db' = books db.
Proof.
  unfold remove_from_shelf at 1.
  destruct (own_item item_id db current_user) as [shelf_item |] eqn:Hown;
    [| discriminate].
  apply own_item_Some in Hown as (_ & Hid & _).
  rewrite Hid; intros H; inversion H; subst db'; clear H.
  assert (Hmem : forall i,
    In i (filter (fun i => negb (ShelfItem.id i =? item_id)) (shelf_items db))
    <-> In i (shelf_items db) /\ ShelfItem.id i <> item_id).
  { intros i; rewrite filter_In, negb_true_iff, Z.eqb_neq; reflexivity. }
  assert (Hnone : own_item item_id (database.delete_shelf_item db item_id) current_user
                  = None).
  { apply shelf_facts.own_item_missing; intros i Hi.
    apply Hmem in Hi; tauto. }
  unfold update_shelf_item, remove_from_shelf; rewrite Hnone.
  split; [reflexivity |]; split; [reflexivity |].
  split; [exact Hmem |]; split; reflexivity.
Qed.

Lemma removed_item_is_gone_witness :
  let db' := mkDb [sample.alice; sample.root] [sample.matilda] [root_item] 2 1 2 in
  let update_data := ShelfItemUpdate.mk None (Some 3) None in
  update_shelf_item 1 update_data db' sample.alice
  = (abort 404 "Shelf item not found", db')
  /\ remove_from_shelf 1 db' sample.alice = (abort 404 "Shelf item not found", db')
  /\ (forall i, In i (shelf_items db')
                <-> In i (shelf_items db_root_reads) /\ ShelfItem.id i <> 1)
  /\ users db' = users db_root_reads
  /\ books db' = books db_root_reads.
Proof.
  apply (removed_item_is_gone 1 (ShelfItemUpdate.mk None (Some 3) None) db_root_reads
           (mkDb [sample.alice; sample.root] [sample.matilda] [root_item] 2 1 2)
           sample.alice).
  reflexivity.
Defined.

End shelf_invariants.

(* ===================================================================== *)
(** ** [GET /auth/me]                                                     *)
(* ===================================================================== *)

Module me_facts.
Import dependencies dependencies_facts auth_token.

(** [GET /auth/me] never changes the store and has three outcomes only: the
    stored user the token resolves to; a 401, for a request without a token
    as for a token that verification refuses; and the unhandled error of the
    database driver, answered 500, for a token that decodes to a subject
    beyond what [users.id] holds, and for no other. *)
Theorem me_is_a_stored_user_or_an_error (sec : security.t)
    (authorization : option string) (db : Db) :
  snd (GET_auth_me sec authorization db) = db
  /\ match fst (GET_auth_me sec authorization db) with
     | Ok u => In u (users db)
               /\ exists token, authorization = Some token
                                /\ get_current_user sec token db = Ok u
     | Raise (Http h) => status_code h = 401
     | Raise (Unhandled e) =>
         e = python.Exception "DBAPIError"
         /\ exists token, authorization = Some token
                          /\ subject_out_of_range sec token
     end.
Proof.
  unfold GET_auth_me, Depends_current_user, get_current_user_info.
  destruct authorization as [token |]; simpl.
  - destruct (get_current_user sec token db) as [u | e] eqn:H; simpl.
    + split; [reflexivity |]; split.
      * eapply get_current_user_Ok; eassumption.
      * exists token; split; [reflexivity | assumption].
    + split; [reflexivity |].
      apply get_current_user_Raise in H as [[-> _] | [-> Hfar]].
      * reflexivity.
      * split; [reflexivity |]; exists token; split; [reflexivity | exact Hfar].
  - split; reflexivity.
Qed.

(** The third outcome on the sample store. *)
Lemma me_with_a_subject_beyond_the_column :
  GET_auth_me sample.sec_far (Some "far-token") sample.db0
  = (Raise (Unhandled (python.Exception "DBAPIError")), sample.db0).
Proof. reflexivity. Qed.

End me_facts.
